(** * NetBox reconciliation adapter: [network_importer/adapters/netbox_api/models.py]

    A shallow embedding of the NetBox-facing models of network-importer
    ([NetboxInterface], [NetboxIPAddress], [NetboxVlan], [NetboxCable]) and
    proofs about their create / update / delete operations and about the
    interface attribute translator.

    Python values are embedded as [PyVal]; dictionaries ([attrs],
    [nb_params]) as [gmap string PyVal]; methods run in a state-and-exception
    monad over a [World] that holds the DSync store, the interface objects it
    refers to, the state of the remote NetBox, and the trace of remote calls
    and log records issued so far. *)

From Stdlib Require Import ZArith String Ascii List Bool.
From Stdlib Require Import DecimalString DecimalPos DecimalFacts.
From stdpp Require Import gmap strings list fin_maps.

Local Open Scope string_scope.
Local Open Scope Z_scope.

(** ** Python values *)

#[local] Set Warnings "-register-all".

Inductive PyVal : Type :=
| VNone
| VBool (b : bool)
| VInt (z : Z)
| VStr (s : string)
| VList (l : list PyVal).

Abbreviation Dict := (gmap string PyVal).

(** [bool(v)] *)
Definition truthy (v : PyVal) : bool :=
  match v with
  | VNone => false
  | VBool b => b
  | VInt z => negb (z =? 0)
  | VStr s => negb (String.eqb s "")
  | VList l => match l with [] => false | _ :: _ => true end
  end.

(** [a == b]; a [bool] is an [int] in Python, so [True == 1]. *)
Fixpoint py_eq (a b : PyVal) {struct a} : bool :=
  match a, b with
  | VNone, VNone => true
  | VBool x, VBool y => Bool.eqb x y
  | VBool x, VInt y => Z.b2z x =? y
  | VInt x, VBool y => x =? Z.b2z y
  | VInt x, VInt y => x =? y
  | VStr x, VStr y => String.eqb x y
  | VList xs, VList ys =>
      (fix go (xs ys : list PyVal) {struct xs} : bool :=
         match xs, ys with
         | [], [] => true
         | x :: xs', y :: ys' => py_eq x y && go xs' ys'
         | _, _ => false
         end) xs ys
  | _, _ => false
  end.

(** [v in [c1, c2, ...]] for string constants *)
Definition py_in_strs (v : PyVal) (cs : list string) : bool :=
  existsb (fun c => py_eq v (VStr c)) cs.

(** [d1 == d2] on dictionaries: same length, and every key of [d1] is a key
    of [d2] with an equal value. *)
Definition dict_eq (d1 d2 : Dict) : bool :=
  Nat.eqb (size d1) (size d2) &&
  forallb (fun kv => match d2 !! kv.1 with
                     | Some v => py_eq kv.2 v
                     | None => false
                     end) (map_to_list d1).

(** [k in d and p(d[k])] *)
Definition has_and (d : Dict) (k : string) (p : PyVal -> bool) : bool :=
  match d !! k with
  | Some v => p v
  | None => false
  end.

(** [k in d] *)
Definition has (d : Dict) (k : string) : bool := has_and d k (fun _ => true).

(** A call that unpacks [ids] and [attrs] into keywords beside the keyword
    [dsync] gives a keyword twice when [attrs] holds a key of [ids] or the
    key [dsync]; Python then raises [TypeError] instead of making the
    call. *)
Definition kwargs_clash (ids_keys : list string) (attrs : Dict) : bool :=
  existsb (has attrs) ids_keys || has attrs "dsync".

(** An [Optional[int]] field as a Python value. *)
Definition of_opt_int (o : option Z) : PyVal :=
  match o with
  | Some z => VInt z
  | None => VNone
  end.

(** [bool(s)] for an [Optional[str]] field *)
Definition truthy_str (o : option string) : bool :=
  match o with
  | Some s => negb (String.eqb s "")
  | None => false
  end.

(** [str(z)] for an [int] *)
Definition py_str_int (z : Z) : string := NilZero.string_of_int (Z.to_int z).

(** ** Exceptions and outcomes *)

Inductive Exn : Type :=
| AttributeError (attr : string)   (* attribute access on [None] *)
| KeyError (key : string)          (* [d[k]] with [k] missing *)
| TypeError                        (* [**x] or iteration over a non-container *)
| RequestError                     (* [pynetbox.core.query.RequestError] *)
| OtherError (what : string).      (* any other error of the remote client *)

Inductive Outcome (A : Type) : Type :=
| Ok (a : A)
| Raise (e : Exn).
Arguments Ok {A} a.
Arguments Raise {A} e.

Global Instance Outcome_ret : MRet Outcome := fun A a => Ok a.
Global Instance Outcome_bind : MBind Outcome := fun A B f c =>
  match c with
  | Ok a => f a
  | Raise e => Raise e
  end.

(** [d[k]] *)
Definition getitem (d : Dict) (k : string) : Outcome PyVal :=
  match d !! k with
  | Some v => Ok v
  | None => Raise (KeyError k)
  end.

(** [o.attr] where [o] may be [None] *)
Definition getattr {O A : Type} (o : option O) (attr : string) (field : O -> A)
  : Outcome A :=
  match o with
  | Some x => Ok (field x)
  | None => Raise (AttributeError attr)
  end.

(** The elements a [for] loop sees: a list's items, a string's characters. *)
Definition py_iter (v : PyVal) : Outcome (list PyVal) :=
  match v with
  | VList l => Ok l
  | VStr s => Ok (map (fun c => VStr (String c EmptyString)) (list_ascii_of_string s))
  | _ => Raise TypeError
  end.

(** A list comprehension whose body may raise. *)
Fixpoint comprehension {A B : Type} (f : A -> Outcome B) (l : list A)
  : Outcome (list B) :=
  match l with
  | [] => Ok []
  | x :: l' => y ← f x; ys ← comprehension f l'; Ok (y :: ys)
  end.

(** ** Entities

    The base models ([Site], [Device], [Interface], [IPAddress], [Vlan],
    [Cable] of [network_importer.models]) are imported by the file; the
    records below carry the fields that the NetBox models read or write. *)

Record NetboxSite : Type := mkSite {
  site_name : string;
  site_remote_id : option Z }.

Record NetboxDevice : Type := mkDevice {
  dev_name : string;
  dev_remote_id : option Z;
  primary_ip : option string }.

(** Modelled from the spec: the base [Interface] model, "an identity key
    (device name + interface name), a set of mutable attributes", of which
    [intf_attrs] is the currently recorded attribute set. *)
Record NetboxInterface : Type := mkInterface {
  intf_name : string;
  intf_device_name : string;
  ips : list string;
  intf_attrs : Dict;
  intf_remote_id : option Z;
  connected_endpoint_type : option string }.

Record NetboxIPAddress : Type := mkIPAddress {
  address : string;
  ip_device_name : option string;
  ip_interface_name : option string;
  ip_remote_id : option Z }.

Record NetboxVlan : Type := mkVlan {
  vlan_site_name : string;
  vid : Z;
  vlan_attrs : Dict;
  vlan_remote_id : option Z }.

Record NetboxCable : Type := mkCable {
  device_a_name : string;
  interface_a_name : string;
  device_z_name : string;
  interface_z_name : string;
  cable_attrs : Dict;
  cable_remote_id : option Z;
  termination_a_id : option Z;
  termination_z_id : option Z }.

(** Interface objects are shared: the DSync store, [self] and the local
    variables of [NetboxCable.create] may all refer to one object, and an
    assignment through one reference is seen through the others.  They are
    therefore addressed by object identity. *)
Definition loc : Type := nat.

(** Modelled from the spec: the Reconciliation Context, "the shared registry
    that holds all entities of all types for one reconciliation run and
    answers identity lookups", one table per entity type keyed by the
    entity's unique id. *)
Record DSync : Type := mkDSync {
  dsync_name : string;
  site : gmap string NetboxSite;
  device : gmap string NetboxDevice;
  interface : gmap string loc;
  vlan : gmap string NetboxVlan }.

(** Modelled from the spec: [get(entity_type, identifier) -> entity | None].
    A string identifier is the unique id itself; any other non-mapping value
    cannot be unpacked into identifier keywords. *)
Definition dsync_get {E : Type} (table : gmap string E) (identifier : PyVal)
  : Outcome (option E) :=
  match identifier with
  | VStr uid => Ok (table !! uid)
  | _ => Raise TypeError
  end.

(** Modelled from the spec: the unique id of an Interface found "by (device,
    name)": the identifier values joined by a double underscore. *)
Definition interface_uid (device_name name : string) : string :=
  String.append device_name (String.append "__" name).

(** ** The remote client and the world *)

Inductive Endpoint : Type :=
| dcim_interfaces
| dcim_cables
| ipam_ip_addresses
| ipam_vlans.

(** A record returned by the remote client: where it lives and its [id]. *)
Record NbRecord : Type := mkRecord {
  rec_endpoint : Endpoint;
  rec_id : Z }.

Inductive Level : Type := DEBUG | INFO | WARNING.

Inductive Event : Type :=
| RemoteCreate (ep : Endpoint) (params : Dict)
| RemoteGet (ep : Endpoint) (key : option Z)
| RemoteUpdate (r : NbRecord) (data : Dict)
| RemoteDelete (r : NbRecord)
| Logged (lvl : Level) (msg : string).

(** The remote NetBox is opaque: each call takes its state [R] to an answer
    (or an exception) and a new state. *)
Record Netbox (R : Type) : Type := mkNetbox {
  nb_create : Endpoint -> Dict -> R -> Outcome NbRecord * R;
  nb_get : Endpoint -> option Z -> R -> Outcome (option NbRecord) * R;
  nb_update : NbRecord -> Dict -> R -> Outcome bool * R;
  nb_delete : NbRecord -> R -> Outcome bool * R }.
Arguments nb_create {R} _ _ _ _.
Arguments nb_get {R} _ _ _ _.
Arguments nb_update {R} _ _ _ _.
Arguments nb_delete {R} _ _ _.

Record World (R : Type) : Type := mkWorld {
  dsync : DSync;
  objs : loc -> NetboxInterface;   (* the interface objects *)
  next : loc;                      (* the next fresh object identity *)
  import_vlans : PyVal;            (* [config.SETTINGS.main.import_vlans] *)
  remote : R;
  trace : list Event }.
Arguments mkWorld {R} _ _ _ _ _ _.
Arguments dsync {R} _.
Arguments objs {R} _ _.
Arguments next {R} _.
Arguments import_vlans {R} _.
Arguments remote {R} _.
Arguments trace {R} _.

(** What a method hands back: a model object, [False], or (for
    [NetboxCable.delete]) a record of the remote client. *)
Inductive Returned (E : Type) : Type :=
| RetModel (e : E)
| RetFalse
| RetRecord (r : NbRecord).
Arguments RetModel {E} e.
Arguments RetFalse {E}.
Arguments RetRecord {E} r.

(** A method: from a world to an outcome and the world it leaves behind (an
    exception does not undo the effects that came before it). *)
Definition M (R A : Type) : Type := World R -> Outcome A * World R.

Global Instance M_ret {R} : MRet (M R) := fun A a w => (Ok a, w).
Global Instance M_bind {R} : MBind (M R) := fun A B f c w =>
  match c w with
  | (Ok a, w') => f a w'
  | (Raise e, w') => (Raise e, w')
  end.

Section Effects.
Context {R : Type}.

Definition lift {A : Type} (o : Outcome A) : M R A := fun w => (o, w).

Definition read {A : Type} (f : World R -> A) : M R A := fun w => (Ok (f w), w).

Definition emit (e : Event) (w : World R) : World R :=
  mkWorld (dsync w) (objs w) (next w) (import_vlans w) (remote w) (trace w ++ [e]).

Definition set_remote (r : R) (w : World R) : World R :=
  mkWorld (dsync w) (objs w) (next w) (import_vlans w) r (trace w).

Definition store (l : loc) (i : NetboxInterface) (w : World R) : World R :=
  mkWorld (dsync w) (fun l' => if Nat.eqb l' l then i else objs w l')
          (next w) (import_vlans w) (remote w) (trace w).

(** [LOGGER.debug / info / warning(msg, ...)] *)
Definition log (lvl : Level) (msg : string) : M R unit :=
  fun w => (Ok tt, emit (Logged lvl msg) w).

(** A new interface object. *)
Definition alloc (i : NetboxInterface) : M R loc := fun w =>
  (Ok (next w),
   mkWorld (dsync w) (fun l' => if Nat.eqb l' (next w) then i else objs w l')
           (S (next w)) (import_vlans w) (remote w) (trace w)).

(** [obj.field = v] on an interface object *)
Definition assign (l : loc) (f : NetboxInterface -> NetboxInterface) : M R unit :=
  fun w => (Ok tt, store l (f (objs w l)) w).

Variable netbox : Netbox R.

(** [dsync.netbox.<endpoint>.create] with keyword arguments [params] *)
Definition remote_create (ep : Endpoint) (params : Dict) : M R NbRecord := fun w =>
  let '(o, r) := nb_create netbox ep params (remote w) in
  (o, set_remote r (emit (RemoteCreate ep params) w)).

(** [dsync.netbox.<endpoint>.get(key)] *)
Definition remote_get (ep : Endpoint) (key : option Z) : M R (option NbRecord) := fun w =>
  let '(o, r) := nb_get netbox ep key (remote w) in
  (o, set_remote r (emit (RemoteGet ep key) w)).

(** [record.update(data=...)]; on [None] the attribute access raises. *)
Definition record_update (rec : option NbRecord) (data : Dict) : M R bool :=
  match rec with
  | None => lift (Raise (AttributeError "update"))
  | Some r => fun w =>
      let '(o, r') := nb_update netbox r data (remote w) in
      (o, set_remote r' (emit (RemoteUpdate r data) w))
  end.

(** [record.delete()]; on [None] the attribute access raises. *)
Definition record_delete (rec : option NbRecord) : M R bool :=
  match rec with
  | None => lift (Raise (AttributeError "delete"))
  | Some r => fun w =>
      let '(o, r') := nb_delete netbox r (remote w) in
      (o, set_remote r' (emit (RemoteDelete r) w))
  end.

(** [try: c except pynetbox.core.query.RequestError: handler] *)
Definition try_except_RequestError {A : Type} (c : M R A) (handler : M R A) : M R A :=
  fun w =>
    match c w with
    | (Raise RequestError, w') => handler w'
    | r => r
    end.

End Effects.

(** Field assignments on an interface object. *)
Definition with_remote_id (rid : option Z) (i : NetboxInterface) : NetboxInterface :=
  mkInterface (intf_name i) (intf_device_name i) (ips i) (intf_attrs i) rid
              (connected_endpoint_type i).

Definition with_connected_endpoint_type (c : option string) (i : NetboxInterface)
  : NetboxInterface :=
  mkInterface (intf_name i) (intf_device_name i) (ips i) (intf_attrs i)
              (intf_remote_id i) c.

(** Modelled from the spec: the base model's [update], which "commits the
    candidate attributes locally": every candidate attribute is set on the
    object, the others keep their value. *)
Definition with_attrs (attrs : Dict) (i : NetboxInterface) : NetboxInterface :=
  mkInterface (intf_name i) (intf_device_name i) (ips i) (attrs ∪ intf_attrs i)
              (intf_remote_id i) (connected_endpoint_type i).

(** ** [class NetboxInterface(Interface)] *)

Module NetboxInterface.

(** The unique identifiers [ids] handed to [create]. *)
Record Ids : Type := mkIds {
  ids_device_name : string;
  ids_name : string }.

(** The keys of [ids]. *)
Definition identifiers : list string := ["device_name"; "name"].

Section Methods.
Context {R : Type}.

Section Translate.
Variable w : World R.
Variable self : loc.
Variable attrs : Dict.

(** The nested helper of [translate_attrs_for_netbox]. *)
Definition convert_vlan_to_nid (vlan_uid : PyVal) : Outcome PyVal :=
  found ← dsync_get (vlan (dsync w)) vlan_uid;
  match found with
  | Some v => Ok (of_opt_int (vlan_remote_id v))
  | None => Ok VNone
  end.

(** Lines 65-68: the device this interface is attached to, and the name. *)
Definition set_device_and_name (nb_params : Dict) : Outcome Dict :=
  dev ← dsync_get (device (dsync w)) (VStr (intf_device_name (objs w self)));
  rid ← getattr dev "remote_id" dev_remote_id;
  let nb_params := <["device" := of_opt_int rid]> nb_params in
  Ok (<["name" := VStr (intf_name (objs w self))]> nb_params).

(** Lines 70-75 *)
Definition set_type (nb_params : Dict) : Dict :=
  if has_and attrs "is_lag" truthy then <["type" := VStr "lag"]> nb_params
  else if has_and attrs "is_virtual" truthy then <["type" := VStr "virtual"]> nb_params
  else <["type" := VStr "other"]> nb_params.

(** Lines 77-78 *)
Definition set_mtu (nb_params : Dict) : Dict :=
  match attrs !! "mtu" with
  | Some v => <["mtu" := v]> nb_params
  | None => nb_params
  end.

(** Lines 80-81: [attrs["description"] or ""] *)
Definition set_description (nb_params : Dict) : Dict :=
  match attrs !! "description" with
  | Some v => <["description" := if truthy v then v else VStr ""]> nb_params
  | None => nb_params
  end.

(** Lines 83-86 *)
Definition set_mode (nb_params : Dict) : Dict :=
  if has_and attrs "switchport_mode" (fun v => py_eq v (VStr "ACCESS"))
  then <["mode" := VStr "access"]> nb_params
  else if has_and attrs "switchport_mode" (fun v => py_eq v (VStr "TRUNK"))
  then <["switchport_mode" := VStr "tagged"]> nb_params
  else nb_params.

(** ["mode" in attrs and attrs["mode"] in modes] *)
Definition mode_in (modes : list string) : bool :=
  has_and attrs "mode" (fun v => py_in_strs v modes).

(** Lines 92-95.  Each condition is evaluated left to right and stops at
    the first false operand; [attrs["access_vlan"]] is a plain subscript. *)
Definition set_untagged_vlan (nb_params : Dict) : Outcome Dict :=
  c1 ← (if mode_in ["TRUNK"; "ACCESS"]
        then v ← getitem attrs "access_vlan"; Ok (truthy v)
        else Ok false);
  if c1 : bool then
    v ← getitem attrs "access_vlan";
    nid ← convert_vlan_to_nid v;
    Ok (<["untagged_vlan" := nid]> nb_params)
  else
    c2 ← (if mode_in ["TRUNK"; "ACCESS"]
          then v ← getitem attrs "access_vlan"; Ok (negb (truthy v))
          else Ok false);
    if c2 : bool then Ok (<["untagged_vlan" := VNone]> nb_params)
    else Ok nb_params.

(** Lines 97-100 *)
Definition set_tagged_vlans (nb_params : Dict) : Outcome Dict :=
  if mode_in ["TRUNK"; "L3_SUB_VLAN"] && has_and attrs "allowed_vlans" truthy then
    allowed ← getitem attrs "allowed_vlans";
    vlans ← py_iter allowed;
    nids ← comprehension convert_vlan_to_nid vlans;
    Ok (<["tagged_vlans" := VList nids]> nb_params)
  else if mode_in ["TRUNK"; "L3_SUB_VLAN"]
          && (negb (has attrs "allowed_vlans")
              || has_and attrs "allowed_vlans" (fun v => negb (truthy v)))
  then Ok (<["tagged_vlans" := VList []]> nb_params)
  else Ok nb_params.

(** Lines 91-100: the VLAN fields, unless the import of VLANs is off. *)
Definition set_vlans (nb_params : Dict) : Outcome Dict :=
  if negb (py_eq (import_vlans w) (VStr "no")) then
    nb_params ← set_untagged_vlan nb_params;
    set_tagged_vlans nb_params
  else Ok nb_params.

(** Lines 102-108 *)
Definition set_lag (nb_params : Dict) : Outcome Dict :=
  if has_and attrs "is_lag_member" truthy then
    parent ← getitem attrs "parent";
    parent_interface ← dsync_get (interface (dsync w)) parent;
    rid ← getattr parent_interface "remote_id" (fun l => intf_remote_id (objs w l));
    Ok (<["lag" := of_opt_int rid]> nb_params)
  else if has_and attrs "is_lag_member" (fun v => negb (truthy v))
  then Ok (<["lag" := VNone]> nb_params)
  else Ok nb_params.

Definition translate_attrs_for_netbox : Outcome Dict :=
  let nb_params : Dict := ∅ in
  nb_params ← set_device_and_name nb_params;
  let nb_params := set_type nb_params in
  let nb_params := set_mtu nb_params in
  let nb_params := set_description nb_params in
  let nb_params := set_mode nb_params in
  nb_params ← set_vlans nb_params;
  nb_params ← set_lag nb_params;
  Ok nb_params.

End Translate.

Variable netbox : Netbox R.

(** [item.translate_attrs_for_netbox(attrs)] as a step of a method *)
Definition translate (self : loc) (attrs : Dict) : M R Dict :=
  fun w => (translate_attrs_for_netbox w self attrs, w).

(** Modelled from the spec: [super().create], which instantiates the entity
    "with identity + desired attributes before any remote call"; the other
    fields start empty.  The call of line 125 unpacks [ids] and [attrs] into
    keywords, so it raises when [attrs] repeats one of them. *)
Definition super_create (ids : Ids) (attrs : Dict) : M R loc :=
  if kwargs_clash identifiers attrs then lift (Raise TypeError)
  else alloc (mkInterface (ids_name ids) (ids_device_name ids) [] attrs None None).

Definition create (ids : Ids) (attrs : Dict) : M R (Returned loc) :=
  item ← super_create ids attrs;
  nb_params ← translate item attrs;
  intf ← remote_create netbox dcim_interfaces nb_params;
  log DEBUG "Created interface %s (%s) in NetBox";;
  assign item (with_remote_id (Some (rec_id intf)));;
  mret (RetModel item).

(** [self.get_attrs()] *)
Definition get_attrs (self : loc) : M R Dict :=
  read (fun w => intf_attrs (objs w self)).

Definition update (self : loc) (attrs : Dict) : M R (Returned loc) :=
  current_attrs ← get_attrs self;
  if dict_eq attrs current_attrs then mret (RetModel self)
  else
    nb_params ← translate self attrs;
    remote_id ← read (fun w => intf_remote_id (objs w self));
    intf ← remote_get netbox dcim_interfaces remote_id;
    record_update netbox intf nb_params;;
    log INFO "Updated Interface %s %s (%s) in NetBox";;
    assign self (with_attrs attrs);;
    mret (RetModel self).

Definition delete (self : loc) : M R (Returned loc) :=
  let proceed : M R (Returned loc) :=
    remote_id ← read (fun w => intf_remote_id (objs w self));
    intf ← remote_get netbox dcim_interfaces remote_id;
    record_delete netbox intf;;
    mret (RetModel self) in
  self_ips ← read (fun w => ips (objs w self));
  match self_ips with
  | _ :: _ =>
      dev ← (fun w => (dsync_get (device (dsync w))
                         (VStr (intf_device_name (objs w self))), w));
      dev_primary_ip ← lift (getattr dev "primary_ip" primary_ip);
      if truthy_str dev_primary_ip
         && existsb (fun ip => bool_decide (dev_primary_ip = Some ip)) self_ips
      then
        log WARNING
          "Unable to delete interface %s on %s, because it's currently the management interface";;
        mret (RetModel self)
      else proceed
  | [] => proceed
  end.

End Methods.
End NetboxInterface.

(** ** [class NetboxIPAddress(IPAddress)] *)

Module NetboxIPAddress.
Section Methods.
Context {R : Type}.
Variable netbox : Netbox R.

Definition delete (self : NetboxIPAddress) : M R (Returned NetboxIPAddress) :=
  let proceed : M R (Returned NetboxIPAddress) :=
    ipaddr ← remote_get netbox ipam_ip_addresses (ip_remote_id self);
    record_delete netbox ipaddr;;
    mret (RetModel self) in
  if truthy_str (ip_device_name self) then
    dev ← (fun w => (dsync_get (device (dsync w))
                       (match ip_device_name self with
                        | Some d => VStr d
                        | None => VNone
                        end), w));
    dev_primary_ip ← lift (getattr dev "primary_ip" primary_ip);
    if bool_decide (dev_primary_ip = Some (address self)) then
      log WARNING
        "Unable to delete IP Address %s on %s, because it's currently the management IP address";;
      mret (RetModel self)
    else proceed
  else proceed.

End Methods.
End NetboxIPAddress.

(** ** [class NetboxVlan(Vlan)] *)

Module NetboxVlan.

Record Ids : Type := mkIds {
  ids_site_name : string;
  ids_vid : Z }.

(** The keys of [ids]. *)
Definition identifiers : list string := ["site_name"; "vid"].

Section Methods.
Context {R : Type}.
Variable netbox : Netbox R.

(** Lines 264-267 *)
Definition vlan_name (ids : Ids) (attrs : Dict) : PyVal :=
  match attrs !! "name" with
  | Some v => if truthy v then v
              else VStr (String.append "vlan-" (py_str_int (ids_vid ids)))
  | None => VStr (String.append "vlan-" (py_str_int (ids_vid ids)))
  end.

(** The keyword arguments of the remote create call of line 270. *)
Definition create_params (ids : Ids) (attrs : Dict) (site_rid : option Z) : Dict :=
  <["vid" := VInt (ids_vid ids)]>
    (<["name" := vlan_name ids attrs]>
       (<["site" := of_opt_int site_rid]> ∅)).

(** The [try] block yields the created record; its [except] branch logs and
    makes [create] return [False], here [None] for the code after the
    block.  The call [super().create] of line 275 unpacks [ids] and [attrs]
    into keywords, so it raises when [attrs] repeats one of them. *)
Definition create (ids : Ids) (attrs : Dict) : M R (Returned NetboxVlan) :=
  found ← (fun w => (dsync_get (site (dsync w)) (VStr (ids_site_name ids)), w));
  created ← try_except_RequestError
    (site_rid ← lift (getattr found "remote_id" site_remote_id);
     vlan ← remote_create netbox ipam_vlans (create_params ids attrs site_rid);
     mret (Some vlan))
    (log WARNING "Unable to create Vlan %s in %s";;
     mret None);
  match created with
  | None => mret RetFalse
  | Some vlan =>
      if kwargs_clash identifiers attrs then lift (Raise TypeError)
      else
        let item := mkVlan (ids_site_name ids) (ids_vid ids) attrs None in
        let item := mkVlan (vlan_site_name item) (vid item) (vlan_attrs item)
                           (Some (rec_id vlan)) in
        mret (RetModel item)
  end.

Definition update (self : NetboxVlan) (attrs : Dict) : M R (Returned NetboxVlan) :=
  vlan ← remote_get netbox ipam_vlans (vlan_remote_id self);
  match vlan with
  | None => lift (Raise (AttributeError "update"))
  | Some _ =>
      name ← lift (getitem attrs "name");
      record_update netbox vlan (<["name" := name]> ∅);;
      mret (RetModel (mkVlan (vlan_site_name self) (vid self)
                             (attrs ∪ vlan_attrs self) (vlan_remote_id self)))
  end.

End Methods.
End NetboxVlan.

(** ** [class NetboxCable(Cable)] *)

Module NetboxCable.

Record Ids : Type := mkIds {
  ids_device_a_name : string;
  ids_interface_a_name : string;
  ids_device_z_name : string;
  ids_interface_z_name : string }.

(** The keys of [ids]. *)
Definition identifiers : list string :=
  ["device_a_name"; "interface_a_name"; "device_z_name"; "interface_z_name"].

Section Methods.
Context {R : Type}.
Variable netbox : Netbox R.

(** [dsync.get_intf_from_netbox(device_name=..., intf_name=...)], a method of
    the adapter: the interface object fetched from the remote system, or a
    false value. *)
Variable get_intf_from_netbox : string -> string -> M R (option loc).

(** [dsync.get(dsync.interface, identifier=dict(device_name=..., name=...))] *)
Definition get_interface (device_name name : string) : M R (option loc) :=
  read (fun w => interface (dsync w) !! interface_uid device_name name).

(** Lines 305-320: both endpoints looked up in the store, then the remote
    lookup under [if not interface_a: ... elif not interface_z: ...]. *)
Definition resolve_endpoints (ids : Ids) : M R (option loc * option loc) :=
  interface_a ← get_interface (ids_device_a_name ids) (ids_interface_a_name ids);
  interface_z ← get_interface (ids_device_z_name ids) (ids_interface_z_name ids);
  match interface_a, interface_z with
  | None, _ =>
      interface_a ← get_intf_from_netbox (ids_device_a_name ids) (ids_interface_a_name ids);
      mret (interface_a, interface_z)
  | Some _, None =>
      interface_z ← get_intf_from_netbox (ids_device_z_name ids) (ids_interface_z_name ids);
      mret (interface_a, interface_z)
  | Some _, Some _ => mret (interface_a, interface_z)
  end.

(** The keyword arguments of the remote create call of lines 344-349. *)
Definition create_params (a_rid z_rid : option Z) : Dict :=
  <["termination_a_type" := VStr "dcim.interface"]>
    (<["termination_b_type" := VStr "dcim.interface"]>
       (<["termination_a_id" := of_opt_int a_rid]>
          (<["termination_b_id" := of_opt_int z_rid]> ∅))).

(** Lines 325-361, once both endpoints are resolved.  The call
    [super().create] of line 357 unpacks [ids] and [attrs] into keywords, so
    it raises when [attrs] repeats one of them. *)
Definition connect (ids : Ids) (attrs : Dict) (interface_a interface_z : loc)
  : M R (Returned NetboxCable) :=
  a_connected ← read (fun w => connected_endpoint_type (objs w interface_a));
  if truthy_str a_connected then
    log INFO "Unable to create Cable in %s, port %s %s is already connected";;
    mret RetFalse
  else
    z_connected ← read (fun w => connected_endpoint_type (objs w interface_z));
    if truthy_str z_connected then
      log INFO "Unable to create Cable in %s, port %s %s is already connected";;
      mret RetFalse
    else
      created ← try_except_RequestError
        (a_rid ← read (fun w => intf_remote_id (objs w interface_a));
         z_rid ← read (fun w => intf_remote_id (objs w interface_z));
         cable ← remote_create netbox dcim_cables (create_params a_rid z_rid);
         mret (Some cable))
        (log WARNING "Unable to create Cable %s in %s";;
         mret None);
      match created with
      | None => mret RetFalse
      | Some cable =>
          assign interface_a (with_connected_endpoint_type (Some "dcim.interface"));;
          assign interface_z (with_connected_endpoint_type (Some "dcim.interface"));;
          if kwargs_clash identifiers attrs then lift (Raise TypeError)
          else
            let item := mkCable (ids_device_a_name ids) (ids_interface_a_name ids)
                                (ids_device_z_name ids) (ids_interface_z_name ids)
                                attrs None None None in
            log INFO "Created Cable %s (%s) in NetBox";;
            mret (RetModel (mkCable (device_a_name item) (interface_a_name item)
                                    (device_z_name item) (interface_z_name item)
                                    (cable_attrs item) (Some (rec_id cable))
                                    (termination_a_id item) (termination_z_id item)))
      end.

Definition create (ids : Ids) (attrs : Dict) : M R (Returned NetboxCable) :=
  '(interface_a, interface_z) ← resolve_endpoints ids;
  match interface_a, interface_z with
  | Some a, Some z => connect ids attrs a z
  | _, _ => mret RetFalse
  end.

Definition delete (self : NetboxCable) : M R (Returned NetboxCable) :=
  cable ← remote_get netbox dcim_cables (cable_remote_id self);
  record_delete netbox cable;;
  match cable with
  | Some r => mret (RetRecord r)
  | None => lift (Raise (AttributeError "delete"))
  end.

End Methods.
End NetboxCable.

(** * Properties *)

(** ** Sample worlds, used to run the methods on concrete inputs *)

Module Sample.

(** A remote system that accepts every call; its state counts the records
    created so far and numbers them. *)
Definition accepting : Netbox Z :=
  mkNetbox Z
    (fun ep _ n => (Ok (mkRecord ep n), n + 1))
    (fun ep key n => (Ok (option_map (mkRecord ep) key), n))
    (fun _ _ n => (Ok true, n))
    (fun _ n => (Ok true, n)).

(** A remote system that rejects every create call. *)
Definition refusing : Netbox Z :=
  mkNetbox Z
    (fun _ _ n => (Raise RequestError, n))
    (fun ep key n => (Ok (option_map (mkRecord ep) key), n))
    (fun _ _ n => (Ok true, n))
    (fun _ n => (Ok true, n)).

Definition eth0 : NetboxInterface :=
  mkInterface "eth0" "sw1" ["10.0.0.1/24"] (<["mtu" := VInt 1500]> ∅) (Some 11) None.

Definition eth1 : NetboxInterface :=
  mkInterface "eth1" "sw1" [] ∅ (Some 12) None.

Definition eth9 : NetboxInterface :=
  mkInterface "eth9" "sw2" [] ∅ (Some 21) None.

(** An interface that already has a cable. *)
Definition eth7 : NetboxInterface :=
  mkInterface "eth7" "sw2" [] ∅ (Some 22) (Some "dcim.interface").

Definition heap (l : loc) : NetboxInterface :=
  match l with
  | 0%nat => eth0
  | 1%nat => eth1
  | 2%nat => eth9
  | _ => eth7
  end.

Definition store : DSync :=
  mkDSync "netbox"
    (<["nyc" := mkSite "nyc" (Some 1)]> ∅)
    (<["sw1" := mkDevice "sw1" (Some 5) (Some "10.0.0.1/24")]>
       (<["sw2" := mkDevice "sw2" (Some 6) None]> ∅))
    (<["sw1__eth0" := 0%nat]>
       (<["sw1__eth1" := 1%nat]>
          (<["sw2__eth9" := 2%nat]> (<["sw2__eth7" := 3%nat]> ∅))))
    (<["10" := mkVlan "nyc" 10 ∅ (Some 77)]> ∅).

Definition world : World Z := mkWorld store heap 4%nat (VStr "config") 100 [].

Definition vlan20 : NetboxVlan :=
  mkVlan "nyc" 20 (<["name" := VStr "users"]> ∅) (Some 78).

Definition mgmt_ip : NetboxIPAddress :=
  mkIPAddress "10.0.0.1/24" (Some "sw1") (Some "eth0") (Some 31).

End Sample.

Module SampleLookup.

(** A remote lookup that finds every interface it is asked for: it logs the
    unique id asked for and returns a new interface object. *)
Definition fetch (device_name name : string) : M Z (option loc) :=
  log DEBUG (interface_uid device_name name);;
  l ← alloc (mkInterface name device_name [] ∅ (Some 900) None);
  mret (Some l).

(** Two interfaces that the store does not hold. *)
Definition ids : NetboxCable.Ids := NetboxCable.mkIds "sw3" "xe0" "sw4" "xe0".

End SampleLookup.

Module SampleCable.

Definition cable : NetboxCable :=
  mkCable "sw1" "eth1" "sw2" "eth9" ∅ (Some 55) None None.

End SampleCable.

Module SampleAttrs.

(** [switchport_mode="ACCESS"], [access_vlan="10"] *)
Definition access10 : Dict :=
  <["switchport_mode" := VStr "ACCESS"]> (<["access_vlan" := VStr "10"]> ∅).


(** [switchport_mode="ACCESS"], [mode="ACCESS"], no [access_vlan] *)
Definition mode_access_only : Dict :=
  <["switchport_mode" := VStr "ACCESS"]> (<["mode" := VStr "ACCESS"]> ∅).


End SampleAttrs.

Module SampleMore.

(** The sample world with the import of VLANs switched off. *)
Definition world_no_vlans : World Z :=
  mkWorld Sample.store Sample.heap 4%nat (VStr "no") 100 [].

(** [mtu=9000], [description=None] *)
Definition scalars : Dict := <["mtu" := VInt 9000]> (<["description" := VNone]> ∅).

(** [switchport_mode="TRUNK"] *)
Definition trunk : Dict := <["switchport_mode" := VStr "TRUNK"]> ∅.

(** The sample world without its devices. *)
Definition world_orphan : World Z :=
  mkWorld (mkDSync "netbox" (site Sample.store) ∅ (interface Sample.store)
                   (vlan Sample.store))
          Sample.heap 4%nat (VStr "config") 100 [].

(** [mode="TRUNK"] *)
Definition mode_trunk : Dict := <["mode" := VStr "TRUNK"]> ∅.

(** [mode="ACCESS"], [access_vlan="99"] *)
Definition mode_access99 : Dict :=
  <["mode" := VStr "ACCESS"]> (<["access_vlan" := VStr "99"]> ∅).

(** [mode="L3_SUB_VLAN"], [allowed_vlans=["10", "99"]] *)
Definition subif : Dict :=
  <["mode" := VStr "L3_SUB_VLAN"]>
    (<["allowed_vlans" := VList [VStr "10"; VStr "99"]]> ∅).

(** [mode="L3_SUB_VLAN"] *)
Definition subif_bare : Dict := <["mode" := VStr "L3_SUB_VLAN"]> ∅.

(** The sample world, the primary IP of sw1 being on another interface. *)
Definition world_other_primary : World Z :=
  mkWorld (mkDSync "netbox" (site Sample.store)
                   (<["sw1" := mkDevice "sw1" (Some 5) (Some "10.0.0.9/24")]> ∅)
                   (interface Sample.store) (vlan Sample.store))
          Sample.heap 4%nat (VStr "config") 100 [].

(** A remote system that holds no record: every get finds nothing. *)
Definition empty_remote : Netbox Z :=
  mkNetbox Z
    (fun ep _ n => (Ok (mkRecord ep n), n + 1))
    (fun _ _ n => (Ok None, n))
    (fun _ _ n => (Ok true, n))
    (fun _ n => (Ok true, n)).

(** A remote system whose create calls fail with an error of the transport. *)
Definition broken : Netbox Z :=
  mkNetbox Z
    (fun _ _ n => (Raise (OtherError "timeout"), n))
    (fun ep key n => (Ok (option_map (mkRecord ep) key), n))
    (fun _ _ n => (Ok true, n))
    (fun _ n => (Ok true, n)).

(** [name="guests"], [mtu=9000] *)
Definition renamed : Dict := <["name" := VStr "guests"]> (<["mtu" := VInt 9000]> ∅).

(** An IP address that is attached to no device. *)
Definition loose_ip : NetboxIPAddress := mkIPAddress "192.0.2.1/32" None None (Some 32).


(** [name="eth0"]: candidate attributes that repeat an identity key of an
    interface *)
Definition with_name : Dict := <["name" := VStr "eth0"]> ∅.

(** [vid=5]: candidate attributes that repeat an identity key of a Vlan *)
Definition with_vid : Dict := <["vid" := VInt 5]> ∅.

(** [mtu=1500], the recorded attributes of the sample interface eth0 *)
Definition mtu_one : Dict := <["mtu" := VInt 1500]> ∅.

(** [is_lag_member=True], [parent="sw1__eth0"] *)
Definition lag_member : Dict :=
  <["is_lag_member" := VBool true]> (<["parent" := VStr "sw1__eth0"]> ∅).

End SampleMore.

(** ** Decimal numerals

    What [str] of an integer is, stated on the string itself: the digits of
    the absolute value, most significant first and without leading zeros,
    after a minus sign for a negative integer. *)

Definition digit_value (c : ascii) : option Z :=
  (if Ascii.eqb c "0" then Some 0 else if Ascii.eqb c "1" then Some 1
   else if Ascii.eqb c "2" then Some 2 else if Ascii.eqb c "3" then Some 3
   else if Ascii.eqb c "4" then Some 4 else if Ascii.eqb c "5" then Some 5
   else if Ascii.eqb c "6" then Some 6 else if Ascii.eqb c "7" then Some 7
   else if Ascii.eqb c "8" then Some 8 else if Ascii.eqb c "9" then Some 9
   else None)%char.

(** The number that the digits of [s] denote after the digits read so far,
    which denote [acc]. *)
Fixpoint digits_value (s : string) (acc : Z) : option Z :=
  match s with
  | EmptyString => Some acc
  | String c s' =>
      match digit_value c with
      | Some d => digits_value s' (10 * acc + d)
      | None => None
      end
  end.

(** [s] is the numeral of the natural number [n]: a non-empty string of
    digits that denotes [n] and that starts with a zero only if it is "0". *)
Definition natural_numeral (s : string) (n : Z) : Prop :=
  s <> "" /\ digits_value s 0 = Some n /\ (s = "0" \/ forall s', s <> String "0" s').

(** [s] is the decimal numeral of the integer [z]. *)
Definition decimal_numeral (s : string) (z : Z) : Prop :=
  if z <? 0 then exists t, s = String "-" t /\ natural_numeral t (- z)
  else natural_numeral s z.

(** ** Predicates used in the statements *)

Section Predicates.
Context {R : Type}.

(** An interface object is connected when its marker is a true value. *)
Definition connected (w : World R) (l : loc) : bool :=
  truthy_str (connected_endpoint_type (objs w l)).

(** The world after [l.connected_endpoint_type = "dcim.interface"]. *)
Definition mark (l : loc) (w : World R) : World R :=
  store l (with_connected_endpoint_type (Some "dcim.interface") (objs w l)) w.

(** Both endpoints of [ids] are in the store, as objects [a] and [z]. *)
Definition endpoints_in_store (w : World R) (ids : NetboxCable.Ids) (a z : loc) : Prop :=
  interface (dsync w)
    !! interface_uid (NetboxCable.ids_device_a_name ids) (NetboxCable.ids_interface_a_name ids)
  = Some a
  /\ interface (dsync w)
       !! interface_uid (NetboxCable.ids_device_z_name ids) (NetboxCable.ids_interface_z_name ids)
     = Some z.

(** [attrs] flag a LAG member whose parent is the unique id [uid], and the
    store has no interface under [uid]. *)
Definition parent_unresolved (w : World R) (attrs : Dict) : Prop :=
  (exists v, attrs !! "is_lag_member" = Some v /\ truthy v = true)
  /\ (exists uid, attrs !! "parent" = Some (VStr uid)
                  /\ interface (dsync w) !! uid = None).

(** The interface [self] is not protected from deletion: it has no IPs, or
    its device has no primary IP, or none of its IPs is the primary IP. *)
Definition unprotected (w : World R) (self : loc) : Prop :=
  ips (objs w self) = []
  \/ exists dev,
      device (dsync w) !! intf_device_name (objs w self) = Some dev
      /\ (truthy_str (primary_ip dev) = false
          \/ forall ip, In ip (ips (objs w self)) -> primary_ip dev <> Some ip).

(** The IP address [self] is not protected from deletion: it has no device
    name, or its device has another primary IP, or none. *)
Definition ip_unprotected (w : World R) (self : NetboxIPAddress) : Prop :=
  truthy_str (ip_device_name self) = false
  \/ exists d dev,
      ip_device_name self = Some d
      /\ device (dsync w) !! d = Some dev
      /\ primary_ip dev <> Some (address self).

(** Two dictionaries have the same keys, with equal values. *)
Definition same_dict (d1 d2 : Dict) : Prop :=
  forall k, match d1 !! k, d2 !! k with
            | Some a, Some b => py_eq a b = true
            | None, None => True
            | _, _ => False
            end.

(** The remote id, as a Python value, of the VLAN that the store holds under
    [uid]; null without such a VLAN. *)
Definition vlan_nid (w : World R) (uid : string) : PyVal :=
  match vlan (dsync w) !! uid with
  | Some v => of_opt_int (vlan_remote_id v)
  | None => VNone
  end.

End Predicates.


(** Unfolding of the monadic plumbing. *)
Ltac run :=
  unfold mbind, mret, M_bind, M_ret, Outcome_bind, Outcome_ret,
         read, lift, log, assign, alloc,
         remote_create, remote_get, record_update, record_delete,
         try_except_RequestError;
  cbn.

(** ** Python equality is reflexive on the embedded values *)

Lemma py_eq_refl : forall v : PyVal, py_eq v v = true.
Proof.
  fix IH 1. intros [ | b | z | s | l]; simpl.
  - reflexivity.
  - apply eqb_reflx.
  - apply Z.eqb_refl.
  - apply String.eqb_refl.
  - induction l as [ | x l' IHl]; [reflexivity | ].
    rewrite (IH x), IHl. reflexivity.
Qed.

Lemma dict_eq_refl (d : Dict) : dict_eq d d = true.
Proof.
  unfold dict_eq. rewrite Nat.eqb_refl. simpl.
  apply forallb_forall. intros [k v] Hin.
  apply list_elem_of_In, elem_of_map_to_list in Hin. simpl.
  rewrite Hin. apply py_eq_refl.
Qed.

(** ** Update *)

Lemma interface_update_recorded_attrs {R} (netbox : Netbox R) (w : World R) (self : loc) :
  NetboxInterface.update netbox self (intf_attrs (objs w self)) w
  = (Ok (RetModel self), w).
Proof.
  unfold NetboxInterface.update, NetboxInterface.get_attrs. run.
  rewrite dict_eq_refl. reflexivity.
Qed.

Lemma vlan_update_calls_remote {R} (netbox : Netbox R) (w : World R)
      (self : NetboxVlan) (attrs : Dict) :
  exists rest,
    trace (NetboxVlan.update netbox self attrs w).2
    = (trace w ++ RemoteGet ipam_vlans (vlan_remote_id self) :: rest)%list.
Proof.
  unfold NetboxVlan.update. run.
  destruct (nb_get netbox ipam_vlans (vlan_remote_id self) (remote w))
    as [[[r | ] | e] r'] eqn:Hget; cbn.
  - destruct (getitem attrs "name") as [name | e]; cbn.
    + destruct (nb_update netbox r (<["name":=name]> ∅) r') as [[b | e] r'']; cbn;
        rewrite <- app_assoc; eexists; reflexivity.
    + eexists; reflexivity.
  - eexists; reflexivity.
  - eexists; reflexivity.
Qed.

(** C1. Update with a candidate attribute set identical to the recorded one:
    [NetboxInterface.update] returns the entity and leaves the world (remote
    system and trace included) as it was, but [NetboxVlan.update] has no
    such test and starts with a remote get in every world, for every Vlan.
    On the sample Vlan it gets the remote record and updates its name. *)
Theorem C1_update_recorded_attrs :
  (forall R (netbox : Netbox R) (w : World R) (self : loc),
      NetboxInterface.update netbox self (intf_attrs (objs w self)) w
      = (Ok (RetModel self), w))
  /\ (forall R (netbox : Netbox R) (w : World R) (self : NetboxVlan),
         exists rest,
           trace (NetboxVlan.update netbox self (vlan_attrs self) w).2
           = (trace w ++ RemoteGet ipam_vlans (vlan_remote_id self) :: rest)%list)
  /\ (let '(out, w') := NetboxVlan.update Sample.accepting Sample.vlan20
                          (vlan_attrs Sample.vlan20) Sample.world in
      out = Ok (RetModel Sample.vlan20)
      /\ trace w' = [RemoteGet ipam_vlans (Some 78);
                     RemoteUpdate (mkRecord ipam_vlans 78)
                                  (<["name" := VStr "users"]> ∅)]).
Proof.
  split; [ | split].
  - intros. apply interface_update_recorded_attrs.
  - intros. apply vlan_update_calls_remote.
  - vm_compute. split; reflexivity.
Qed.

(** ** Delete *)

Lemma existsb_primary_ip (ip : string) (l : list string) :
  In ip l -> existsb (fun x => bool_decide (Some ip = Some x)) l = true.
Proof.
  intros Hin. apply existsb_exists. exists ip. split; [exact Hin | ].
  apply bool_decide_eq_true. reflexivity.
Qed.

Lemma interface_delete_protected {R} (netbox : Netbox R) (w : World R)
      (self : loc) (dev : NetboxDevice) (ip : string) :
  device (dsync w) !! intf_device_name (objs w self) = Some dev ->
  primary_ip dev = Some ip ->
  ip <> "" ->
  In ip (ips (objs w self)) ->
  exists msg,
    NetboxInterface.delete netbox self w
    = (Ok (RetModel self), emit (Logged WARNING msg) w).
Proof.
  intros Hdev Hprim Hne Hin.
  unfold NetboxInterface.delete. run.
  destruct (ips (objs w self)) as [ | i0 rest] eqn:Hips; [destruct Hin | ].
  pose proof (existsb_primary_ip ip (i0 :: rest) Hin) as He.
  cbn. rewrite Hdev. cbn. rewrite Hprim. cbn. cbn in He. rewrite He.
  destruct (String.eqb_spec ip ""); [contradiction | ]. cbn.
  eexists. reflexivity.
Qed.

Lemma ipaddress_delete_protected {R} (netbox : Netbox R) (w : World R)
      (self : NetboxIPAddress) (d : string) (dev : NetboxDevice) :
  ip_device_name self = Some d ->
  d <> "" ->
  device (dsync w) !! d = Some dev ->
  primary_ip dev = Some (address self) ->
  exists msg,
    NetboxIPAddress.delete netbox self w
    = (Ok (RetModel self), emit (Logged WARNING msg) w).
Proof.
  intros Hname Hne Hdev Hprim.
  unfold NetboxIPAddress.delete. run.
  rewrite Hname. cbn.
  destruct (String.eqb_spec d ""); [contradiction | ]. cbn.
  rewrite Hdev. cbn. rewrite Hprim.
  rewrite bool_decide_eq_true_2 by reflexivity.
  eexists. reflexivity.
Qed.

(** C2. Deleting an Interface whose IPs contain the primary IP designated
    for its device, or an IPAddress equal to the primary IP of its device,
    returns the entity itself; the only effect is one WARNING log record:
    the store, the interface objects and the remote system are untouched
    and no remote call is added to the trace. *)
Theorem C2_delete_refuses_primary_ip :
  (forall R (netbox : Netbox R) (w : World R) (self : loc)
          (dev : NetboxDevice) (ip : string),
      device (dsync w) !! intf_device_name (objs w self) = Some dev ->
      primary_ip dev = Some ip ->
      ip <> "" ->
      In ip (ips (objs w self)) ->
      exists msg,
        NetboxInterface.delete netbox self w
        = (Ok (RetModel self), emit (Logged WARNING msg) w))
  /\ (forall R (netbox : Netbox R) (w : World R) (self : NetboxIPAddress)
             (d : string) (dev : NetboxDevice),
         ip_device_name self = Some d ->
         d <> "" ->
         device (dsync w) !! d = Some dev ->
         primary_ip dev = Some (address self) ->
         exists msg,
           NetboxIPAddress.delete netbox self w
           = (Ok (RetModel self), emit (Logged WARNING msg) w)).
Proof.
  split; intros.
  - eapply interface_delete_protected; eassumption.
  - eapply ipaddress_delete_protected; eassumption.
Qed.

Lemma C2_delete_refuses_primary_ip_witness :
  (exists msg,
      NetboxInterface.delete Sample.accepting 0%nat Sample.world
      = (Ok (RetModel 0%nat), emit (Logged WARNING msg) Sample.world))
  /\ (exists msg,
         NetboxIPAddress.delete Sample.accepting Sample.mgmt_ip Sample.world
         = (Ok (RetModel Sample.mgmt_ip), emit (Logged WARNING msg) Sample.world)).
Proof.
  split.
  - apply (proj1 C2_delete_refuses_primary_ip Z Sample.accepting Sample.world 0%nat
             (mkDevice "sw1" (Some 5) (Some "10.0.0.1/24")) "10.0.0.1/24").
    + reflexivity.
    + reflexivity.
    + discriminate.
    + simpl. left. reflexivity.
  - apply (proj2 C2_delete_refuses_primary_ip Z Sample.accepting Sample.world
             Sample.mgmt_ip "sw1" (mkDevice "sw1" (Some 5) (Some "10.0.0.1/24"))).
    + reflexivity.
    + discriminate.
    + reflexivity.
    + reflexivity.
Defined.

(** ** Cable create: the "already connected" guard *)

Section CableCreate.
Context {R : Type}.
Variable netbox : Netbox R.
Variable get_intf_from_netbox : string -> string -> M R (option loc).

Let create := NetboxCable.create netbox get_intf_from_netbox.
Let resolve_endpoints := NetboxCable.resolve_endpoints get_intf_from_netbox.

Lemma mark_connected_same (l : loc) (w : World R) : connected (mark l w) l = true.
Proof. unfold connected, mark, store. cbn. rewrite Nat.eqb_refl. reflexivity. Qed.

Lemma mark_connected_mono (l l' : loc) (w : World R) :
  connected w l' = true -> connected (mark l w) l' = true.
Proof.
  intros H. unfold connected, mark, store in *. cbn.
  destruct (Nat.eqb l' l); [reflexivity | exact H].
Qed.

Lemma resolve_in_store (w : World R) (ids : NetboxCable.Ids) (a z : loc) :
  endpoints_in_store w ids a z ->
  resolve_endpoints ids w = (Ok (Some a, Some z), w).
Proof.
  intros [Ha Hz].
  unfold resolve_endpoints, NetboxCable.resolve_endpoints, NetboxCable.get_interface.
  run. rewrite Ha, Hz. reflexivity.
Qed.




End CableCreate.




(** ** Cable create: resolution of the endpoints *)

(** With neither endpoint in the store, only endpoint A is looked up
    remotely; endpoint Z stays unresolved and create returns [False]. *)
Lemma cable_create_both_missing {R} (netbox : Netbox R)
      (get_intf_from_netbox : string -> string -> M R (option loc))
      (w w' : World R) (ids : NetboxCable.Ids) (attrs : Dict) (found : option loc) :
  interface (dsync w)
    !! interface_uid (NetboxCable.ids_device_a_name ids) (NetboxCable.ids_interface_a_name ids)
  = None ->
  interface (dsync w)
    !! interface_uid (NetboxCable.ids_device_z_name ids) (NetboxCable.ids_interface_z_name ids)
  = None ->
  get_intf_from_netbox (NetboxCable.ids_device_a_name ids)
                       (NetboxCable.ids_interface_a_name ids) w = (Ok found, w') ->
  NetboxCable.create netbox get_intf_from_netbox ids attrs w = (Ok RetFalse, w').
Proof.
  intros Ha Hz Hfetch.
  unfold NetboxCable.create, NetboxCable.resolve_endpoints, NetboxCable.get_interface.
  run. rewrite Ha, Hz, Hfetch. cbn. destruct found; reflexivity.
Qed.

(** C4. On two interfaces that are not in the store and that the remote
    lookup would both find, create asks the remote lookup for endpoint A
    only (the trace holds that one lookup), never for endpoint Z, and
    returns [False], although the lookup of Z in the world it ends in
    succeeds and the remote system accepts every call. *)
Theorem C4_cable_create_skips_lookup_of_z :
  let '(out, w') := NetboxCable.create Sample.accepting SampleLookup.fetch
                      SampleLookup.ids ∅ Sample.world in
  out = Ok RetFalse
  /\ trace w' = [Logged DEBUG "sw3__xe0"]
  /\ (SampleLookup.fetch "sw4" "xe0" w').1 = Ok (Some 5%nat).
Proof. vm_compute. repeat split; reflexivity. Qed.

(** ** Vlan create *)

(** C5. When the remote system answers the create call of a Vlan with its
    validation/conflict error, [NetboxVlan.create] raises nothing and
    returns [False]; after the remote call its only effect is one WARNING
    log record: the store and the interface objects are as before, so no
    entity is registered, and no Vlan carrying a remote id is returned. *)
Theorem C5_vlan_create_conflict_returns_false :
  forall R (netbox : Netbox R) (w : World R) (ids : NetboxVlan.Ids) (attrs : Dict)
         (s : NetboxSite) (r' : R),
    site (dsync w) !! NetboxVlan.ids_site_name ids = Some s ->
    nb_create netbox ipam_vlans
      (NetboxVlan.create_params ids attrs (site_remote_id s)) (remote w)
    = (Raise RequestError, r') ->
    exists msg w',
      NetboxVlan.create netbox ids attrs w = (Ok RetFalse, w')
      /\ w' = emit (Logged WARNING msg)
                (set_remote r'
                   (emit (RemoteCreate ipam_vlans
                            (NetboxVlan.create_params ids attrs (site_remote_id s))) w))
      /\ dsync w' = dsync w
      /\ objs w' = objs w.
Proof.
  intros R netbox w ids attrs s r' Hsite Hcreate.
  unfold NetboxVlan.create. run. rewrite Hsite. cbn. rewrite Hcreate. cbn.
  eexists. eexists. repeat split; reflexivity.
Qed.

Lemma C5_vlan_create_conflict_returns_false_witness :
  exists msg w',
    NetboxVlan.create Sample.refusing (NetboxVlan.mkIds "nyc" 20) ∅ Sample.world
    = (Ok RetFalse, w')
    /\ w' = emit (Logged WARNING msg)
              (set_remote 100
                 (emit (RemoteCreate ipam_vlans
                          (NetboxVlan.create_params (NetboxVlan.mkIds "nyc" 20) ∅ (Some 1)))
                       Sample.world))
    /\ dsync w' = dsync Sample.world
    /\ objs w' = objs Sample.world.
Proof.
  apply (C5_vlan_create_conflict_returns_false Z Sample.refusing Sample.world
           (NetboxVlan.mkIds "nyc" 20) ∅ (mkSite "nyc" (Some 1)) 100).
  - reflexivity.
  - reflexivity.
Defined.

(** *** [str] of an integer is its decimal numeral *)

Lemma digits_value_acc (d : Decimal.uint) (acc : positive) :
  digits_value (NilEmpty.string_of_uint d) (Zpos acc)
  = Some (Zpos (Pos.of_uint_acc d acc)).
Proof.
  revert acc.
  induction d; intros acc;
    cbn [NilEmpty.string_of_uint digits_value Pos.of_uint_acc];
    try reflexivity; cbn [digit_value Ascii.eqb Bool.eqb];
    cbn -[Z.mul Z.add Pos.mul Pos.add];
    rewrite <- IHd; f_equal; lia.
Qed.

Lemma digits_value_of_uint (d : Decimal.uint) :
  digits_value (NilEmpty.string_of_uint d) 0 = Some (Z.of_N (Pos.of_uint d)).
Proof.
  induction d; cbn [NilEmpty.string_of_uint digits_value Pos.of_uint];
    try reflexivity; cbn [digit_value Ascii.eqb Bool.eqb];
    cbn -[Z.mul Z.add Pos.mul Pos.add];
    try exact IHd;
    cbn [Z.of_N]; rewrite <- digits_value_acc; reflexivity.
Qed.

(** The digits of a positive number do not start with a zero. *)
Lemma to_uint_no_leading_zero (p : positive) (d' : Decimal.uint) :
  Pos.to_uint p <> Decimal.D0 d'.
Proof.
  intros H.
  pose proof (Unsigned.to_of (Pos.to_uint p)) as Hn.
  rewrite Unsigned.of_to in Hn. cbn [N.to_uint] in Hn.
  rewrite H in Hn. unfold Decimal.unorm in Hn. rewrite nzhead_D0 in Hn.
  destruct (Decimal.nzhead d') eqn:Hz;
    try (symmetry in Hn; rewrite <- Hz in Hn; exact (nzhead_nonzero _ _ Hn)).
  injection Hn as ->. exact (Unsigned.to_uint_nonzero p H).
Qed.

Lemma natural_numeral_to_uint (p : positive) :
  natural_numeral (NilZero.string_of_uint (Pos.to_uint p)) (Zpos p).
Proof.
  pose proof (Unsigned.to_uint_nonnil p) as Hnil.
  pose proof (to_uint_no_leading_zero p) as Hnorm.
  pose proof (digits_value_of_uint (Pos.to_uint p)) as Hv.
  rewrite Unsigned.of_to in Hv. cbn [Z.of_N] in Hv.
  unfold NilZero.string_of_uint.
  destruct (Pos.to_uint p) as [ | d | d | d | d | d | d | d | d | d | d ] eqn:Hd;
    try contradiction;
    try (exfalso; exact (Hnorm d eq_refl));
    (split; [discriminate | split; [exact Hv | right; intros s'; discriminate]]).
Qed.

Lemma py_str_int_decimal (z : Z) : decimal_numeral (py_str_int z) z.
Proof.
  unfold decimal_numeral, py_str_int.
  destruct z as [ | p | p];
    cbn [Z.ltb Z.compare Z.to_int NilZero.string_of_int Z.opp].
  - cbn. split; [discriminate | split; [reflexivity | left; reflexivity]].
  - apply natural_numeral_to_uint.
  - eexists. split; [reflexivity | apply natural_numeral_to_uint].
Qed.

Lemma vlan_name_default (ids : NetboxVlan.Ids) (attrs : Dict) :
  attrs !! "name" = None \/ (exists v, attrs !! "name" = Some v /\ truthy v = false) ->
  NetboxVlan.vlan_name ids attrs
  = VStr (String.append "vlan-" (py_str_int (NetboxVlan.ids_vid ids))).
Proof.
  unfold NetboxVlan.vlan_name.
  intros [-> | (v & -> & ->)]; reflexivity.
Qed.

(** Whatever the remote system answers, a Vlan create whose site is in the
    store starts with the remote create call. *)
Lemma vlan_create_calls_remote {R} (netbox : Netbox R) (w : World R)
      (ids : NetboxVlan.Ids) (attrs : Dict) (s : NetboxSite) :
  site (dsync w) !! NetboxVlan.ids_site_name ids = Some s ->
  exists rest,
    trace (NetboxVlan.create netbox ids attrs w).2
    = (trace w ++ RemoteCreate ipam_vlans
                    (NetboxVlan.create_params ids attrs (site_remote_id s)) :: rest)%list.
Proof.
  intros Hsite. unfold NetboxVlan.create. run. rewrite Hsite. cbn.
  destruct (nb_create netbox ipam_vlans
              (NetboxVlan.create_params ids attrs (site_remote_id s)) (remote w))
    as [[vlan | e] r'] eqn:Hcreate; cbn.
  - destruct (kwargs_clash NetboxVlan.identifiers attrs); cbn; exists []; reflexivity.
  - destruct e; cbn; eexists; try rewrite <- app_assoc; reflexivity.
Qed.

(** C8. A Vlan create whose attributes have no name, or a name that is a
    false value, and whose site is in the store, issues the remote create
    call with the name "vlan-" followed by the decimal numeral of the vid
    (its digits, most significant first, without leading zeros), whatever
    the remote system then answers; with vid 20 and no name the remote call
    carries name "vlan-20", with vid 4094 and an empty name "vlan-4094". *)
Theorem C8_vlan_create_default_name :
  (forall R (netbox : Netbox R) (w : World R) (ids : NetboxVlan.Ids) (attrs : Dict)
          (s : NetboxSite),
      site (dsync w) !! NetboxVlan.ids_site_name ids = Some s ->
      attrs !! "name" = None \/ (exists v, attrs !! "name" = Some v /\ truthy v = false) ->
      exists numeral params rest,
        trace (NetboxVlan.create netbox ids attrs w).2
        = (trace w ++ RemoteCreate ipam_vlans params :: rest)%list
        /\ params !! "name" = Some (VStr (String.append "vlan-" numeral))
        /\ decimal_numeral numeral (NetboxVlan.ids_vid ids)
        /\ params !! "vid" = Some (VInt (NetboxVlan.ids_vid ids)))
  /\ trace (NetboxVlan.create Sample.accepting (NetboxVlan.mkIds "nyc" 20) ∅ Sample.world).2
     = [RemoteCreate ipam_vlans
          (<["vid" := VInt 20]> (<["name" := VStr "vlan-20"]> (<["site" := VInt 1]> ∅)))]
  /\ trace (NetboxVlan.create Sample.accepting (NetboxVlan.mkIds "nyc" 4094)
              (<["name" := VStr ""]> ∅) Sample.world).2
     = [RemoteCreate ipam_vlans
          (<["vid" := VInt 4094]>
             (<["name" := VStr "vlan-4094"]> (<["site" := VInt 1]> ∅)))].
Proof.
  split; [ | split; vm_compute; reflexivity].
  intros R netbox w ids attrs s Hsite Hname.
  destruct (vlan_create_calls_remote netbox w ids attrs s Hsite) as [rest Hrest].
  exists (py_str_int (NetboxVlan.ids_vid ids)),
         (NetboxVlan.create_params ids attrs (site_remote_id s)), rest.
  split; [exact Hrest | ].
  unfold NetboxVlan.create_params. rewrite (vlan_name_default ids attrs Hname).
  split; [reflexivity | split; [apply py_str_int_decimal | reflexivity]].
Qed.

Lemma C8_vlan_create_default_name_witness :
  exists numeral params rest,
    trace (NetboxVlan.create Sample.refusing (NetboxVlan.mkIds "nyc" 20)
             (<["name" := VStr ""]> ∅) Sample.world).2
    = (trace Sample.world ++ RemoteCreate ipam_vlans params :: rest)%list
    /\ params !! "name" = Some (VStr (String.append "vlan-" numeral))
    /\ decimal_numeral numeral 20
    /\ params !! "vid" = Some (VInt 20).
Proof.
  apply (proj1 C8_vlan_create_default_name Z Sample.refusing Sample.world
           (NetboxVlan.mkIds "nyc" 20) (<["name" := VStr ""]> ∅) (mkSite "nyc" (Some 1))).
  - reflexivity.
  - right. exists (VStr ""). split; reflexivity.
Defined.

(** ** Cable delete *)

(** C7. [NetboxCable.delete] makes no test before the remote calls: it gets
    the remote record by remote id and deletes it.  What it returns is never
    the local Cable: on the sample cable it returns the record that the
    remote client gave it. *)
Theorem C7_cable_delete_returns_remote_record :
  (forall R (netbox : Netbox R) (w : World R) (self : NetboxCable),
      match (NetboxCable.delete netbox self w).1 with
      | Ok (RetModel _) => False
      | _ => True
      end)
  /\ (let '(out, w') := NetboxCable.delete Sample.accepting SampleCable.cable Sample.world in
      out = Ok (RetRecord (mkRecord dcim_cables 55))
      /\ trace w' = [RemoteGet dcim_cables (Some 55);
                     RemoteDelete (mkRecord dcim_cables 55)]).
Proof.
  split; [ | vm_compute; split; reflexivity].
  intros R netbox w self. unfold NetboxCable.delete. run.
  destruct (nb_get netbox dcim_cables (cable_remote_id self) (remote w))
    as [[[r | ] | e] r']; cbn; try exact I.
  destruct (nb_delete netbox r r') as [[b | e] r'']; cbn; exact I.
Qed.

(** ** The interface attribute translator *)

Section TranslateFacts.
Context {R : Type}.
Variable w : World R.
Variable self : loc.
Variable attrs : Dict.

Import NetboxInterface.

(** Each block of the translator writes its own keys only. *)

Lemma set_mtu_other (k : string) (p : Dict) :
  k <> "mtu" -> set_mtu attrs p !! k = p !! k.
Proof.
  intros Hk. unfold set_mtu. destruct (attrs !! "mtu"); [ | reflexivity].
  apply lookup_insert_ne. congruence.
Qed.

Lemma set_description_other (k : string) (p : Dict) :
  k <> "description" -> set_description attrs p !! k = p !! k.
Proof.
  intros Hk. unfold set_description. destruct (attrs !! "description"); [ | reflexivity].
  apply lookup_insert_ne. congruence.
Qed.

Lemma set_mode_other (k : string) (p : Dict) :
  k <> "mode" -> k <> "switchport_mode" -> set_mode attrs p !! k = p !! k.
Proof.
  intros Hk1 Hk2. unfold set_mode.
  repeat match goal with |- context [if ?c then _ else _] => destruct c end;
    try reflexivity; apply lookup_insert_ne; congruence.
Qed.

Lemma set_untagged_vlan_other (k : string) (p p' : Dict) :
  k <> "untagged_vlan" -> set_untagged_vlan w attrs p = Ok p' -> p' !! k = p !! k.
Proof.
  intros Hk. unfold set_untagged_vlan.
  destruct (mode_in attrs ["TRUNK"; "ACCESS"]); cbn.
  - destruct (getitem attrs "access_vlan") as [v | e]; cbn; [ | discriminate].
    destruct (truthy v); cbn.
    + destruct (convert_vlan_to_nid w v) as [nid | e]; cbn; [ | discriminate].
      intros [= <-]. apply lookup_insert_ne. congruence.
    + intros [= <-]. apply lookup_insert_ne. congruence.
  - intros [= <-]. reflexivity.
Qed.

Lemma set_tagged_vlans_other (k : string) (p p' : Dict) :
  k <> "tagged_vlans" -> set_tagged_vlans w attrs p = Ok p' -> p' !! k = p !! k.
Proof.
  intros Hk. unfold set_tagged_vlans.
  destruct (mode_in attrs ["TRUNK"; "L3_SUB_VLAN"] && has_and attrs "allowed_vlans" truthy).
  - destruct (getitem attrs "allowed_vlans") as [v | e]; cbn; [ | discriminate].
    destruct (py_iter v) as [vs | e]; cbn; [ | discriminate].
    destruct (comprehension (convert_vlan_to_nid w) vs) as [nids | e]; cbn; [ | discriminate].
    intros [= <-]. apply lookup_insert_ne. congruence.
  - destruct (mode_in attrs ["TRUNK"; "L3_SUB_VLAN"] && _).
    + intros [= <-]. apply lookup_insert_ne. congruence.
    + intros [= <-]. reflexivity.
Qed.

Lemma set_vlans_other (k : string) (p p' : Dict) :
  k <> "untagged_vlan" -> k <> "tagged_vlans" ->
  set_vlans w attrs p = Ok p' -> p' !! k = p !! k.
Proof.
  intros Hk1 Hk2. unfold set_vlans.
  destruct (negb (py_eq (import_vlans w) (VStr "no"))).
  - destruct (set_untagged_vlan w attrs p) as [p1 | e] eqn:H1; cbn; [ | discriminate].
    intros H2.
    rewrite (set_tagged_vlans_other k p1 p' Hk2 H2).
    apply (set_untagged_vlan_other k p p1 Hk1 H1).
  - intros [= <-]. reflexivity.
Qed.

Lemma set_lag_other (k : string) (p p' : Dict) :
  k <> "lag" -> set_lag w attrs p = Ok p' -> p' !! k = p !! k.
Proof.
  intros Hk. unfold set_lag.
  destruct (has_and attrs "is_lag_member" truthy).
  - destruct (getitem attrs "parent") as [v | e]; cbn; [ | discriminate].
    destruct (dsync_get (interface (dsync w)) v) as [[l | ] | e]; cbn; try discriminate.
    intros [= <-]. apply lookup_insert_ne. congruence.
  - destruct (has_and attrs "is_lag_member" _).
    + intros [= <-]. apply lookup_insert_ne. congruence.
    + intros [= <-]. reflexivity.
Qed.

(** The translator returns [p] exactly when its three fallible blocks return,
    the pure blocks in between. *)
Lemma translate_Ok_inv (p : Dict) :
  translate_attrs_for_netbox w self attrs = Ok p ->
  exists p0 p1,
    set_device_and_name w self ∅ = Ok p0
    /\ set_vlans w attrs
         (set_mode attrs (set_description attrs (set_mtu attrs (set_type attrs p0)))) = Ok p1
    /\ set_lag w attrs p1 = Ok p.
Proof.
  unfold translate_attrs_for_netbox.
  destruct (set_device_and_name w self ∅) as [p0 | e]; cbn; [ | discriminate].
  destruct (set_vlans w attrs _) as [p1 | e] eqn:Hv; cbn; [ | discriminate].
  destruct (set_lag w attrs p1) as [p2 | e] eqn:Hl; cbn; [ | discriminate].
  intros [= <-]. exists p0, p1. repeat split; assumption.
Qed.

(** The type written by lines 70-75 is the type of the result. *)
Lemma translate_type (p : Dict) :
  translate_attrs_for_netbox w self attrs = Ok p ->
  p !! "type" = set_type attrs ∅ !! "type".
Proof.
  intros H. destruct (translate_Ok_inv p H) as (p0 & p1 & _ & Hv & Hl).
  rewrite (set_lag_other "type" p1 p ltac:(discriminate) Hl).
  rewrite (set_vlans_other "type" _ p1 ltac:(discriminate) ltac:(discriminate) Hv).
  rewrite set_mode_other by discriminate.
  rewrite set_description_other by discriminate.
  rewrite set_mtu_other by discriminate.
  unfold set_type.
  repeat match goal with |- context [if ?c then _ else _] => destruct c end;
    rewrite !lookup_insert_eq; reflexivity.
Qed.

(** Without a [mode] and without an [is_lag_member] attribute, and with the
    device in the store, the translator returns. *)
Lemma translate_returns (dev : NetboxDevice) :
  device (dsync w) !! intf_device_name (objs w self) = Some dev ->
  attrs !! "mode" = None ->
  attrs !! "is_lag_member" = None ->
  exists p, translate_attrs_for_netbox w self attrs = Ok p.
Proof.
  intros Hdev Hmode Hlag.
  unfold translate_attrs_for_netbox, set_device_and_name. cbn.
  rewrite Hdev. cbn.
  unfold set_vlans, set_untagged_vlan, set_tagged_vlans, mode_in, set_lag, has_and.
  rewrite Hmode, Hlag. cbn.
  destruct (negb (py_eq (import_vlans w) (VStr "no"))); cbn; eexists; reflexivity.
Qed.

End TranslateFacts.

(** C9. In the parameters the translator returns, [type] is "lag" whenever
    [is_lag] is a true value, whatever [is_virtual] is; "virtual" when
    [is_lag] is absent or false and [is_virtual] is a true value; and
    "other" when both are absent or false.  The translator does return for
    every such choice of the two flags, given the device is in the store
    and the attributes have no [mode] and no [is_lag_member]. *)
Theorem C9_translate_type :
  forall R (w : World R) (self : loc) (attrs : Dict),
    (forall p, NetboxInterface.translate_attrs_for_netbox w self attrs = Ok p ->
               p !! "type"
               = Some (VStr (match attrs !! "is_lag", attrs !! "is_virtual" with
                             | Some lag, Some virt =>
                                 if truthy lag then "lag"
                                 else if truthy virt then "virtual" else "other"
                             | Some lag, None => if truthy lag then "lag" else "other"
                             | None, Some virt => if truthy virt then "virtual" else "other"
                             | None, None => "other"
                             end)))
    /\ (forall dev,
           device (dsync w) !! intf_device_name (objs w self) = Some dev ->
           attrs !! "mode" = None ->
           attrs !! "is_lag_member" = None ->
           exists p, NetboxInterface.translate_attrs_for_netbox w self attrs = Ok p).
Proof.
  intros R w self attrs. split.
  - intros p H. rewrite (translate_type w self attrs p H).
    unfold NetboxInterface.set_type, has_and.
    destruct (attrs !! "is_lag") as [lag | ]; destruct (attrs !! "is_virtual") as [virt | ];
      repeat match goal with |- context [truthy ?v] => destruct (truthy v) end;
      rewrite lookup_insert_eq; reflexivity.
  - intros dev. apply translate_returns.
Qed.

Lemma C9_translate_type_witness :
  let attrs : Dict := <["is_lag" := VBool true]> (<["is_virtual" := VBool true]> ∅) in
  exists p, NetboxInterface.translate_attrs_for_netbox Sample.world 0%nat attrs = Ok p
            /\ p !! "type" = Some (VStr "lag").
Proof.
  intros attrs.
  destruct (proj2 (C9_translate_type Z Sample.world 0%nat attrs)
              (mkDevice "sw1" (Some 5) (Some "10.0.0.1/24"))
              eq_refl eq_refl eq_refl) as [p Hp].
  exists p. split; [exact Hp | ].
  exact (proj1 (C9_translate_type Z Sample.world 0%nat attrs) p Hp).
Defined.

(** *** LAG membership *)

Section LagMember.
Context {R : Type}.

Lemma set_lag_raises (w : World R) (attrs p : Dict) :
  parent_unresolved w attrs ->
  NetboxInterface.set_lag w attrs p = Raise (AttributeError "remote_id").
Proof.
  intros [(v & Hv & Ht) (uid & Hp & Hnone)].
  unfold NetboxInterface.set_lag, has_and, getitem.
  rewrite Hv, Ht, Hp. cbn. rewrite Hnone. reflexivity.
Qed.

Lemma translate_raises (w : World R) (self : loc) (attrs : Dict) :
  parent_unresolved w attrs ->
  exists e, NetboxInterface.translate_attrs_for_netbox w self attrs = Raise e.
Proof.
  intros H. unfold NetboxInterface.translate_attrs_for_netbox.
  destruct (NetboxInterface.set_device_and_name w self ∅) as [p0 | e]; cbn;
    [ | eexists; reflexivity].
  destruct (NetboxInterface.set_vlans w attrs _) as [p1 | e]; cbn;
    [ | eexists; reflexivity].
  rewrite (set_lag_raises w attrs p1 H). eexists. reflexivity.
Qed.

(** When the blocks before it return, the exception is the attribute access
    on [None] of line 105. *)
Lemma translate_raises_AttributeError (w : World R) (self : loc) (attrs : Dict)
      (dev : NetboxDevice) :
  parent_unresolved w attrs ->
  device (dsync w) !! intf_device_name (objs w self) = Some dev ->
  attrs !! "mode" = None ->
  NetboxInterface.translate_attrs_for_netbox w self attrs
  = Raise (AttributeError "remote_id").
Proof.
  intros H Hdev Hmode.
  unfold NetboxInterface.translate_attrs_for_netbox, NetboxInterface.set_device_and_name.
  cbn. rewrite Hdev. cbn.
  unfold NetboxInterface.set_vlans, NetboxInterface.set_untagged_vlan,
    NetboxInterface.set_tagged_vlans, NetboxInterface.mode_in, has_and.
  rewrite Hmode. cbn.
  destruct (negb (py_eq (import_vlans w) (VStr "no"))); cbn;
    rewrite (set_lag_raises w attrs _ H); reflexivity.
Qed.

End LagMember.

(** C10. When the candidate attributes flag a LAG member and the store has
    no interface under the parent's id, the translator raises: it neither
    returns parameters without the LAG field nor anything else.  The
    exception is the attribute access on the [None] of the lookup when the
    blocks before it return (device in the store, no [mode] attribute).
    Hence create raises, and update raises when the candidate attributes
    differ from the recorded ones (so that the translator is reached); in
    both the exception comes before any remote call, so the trace and the
    remote system are as before. *)
Theorem C10_lag_member_unresolved_parent_raises :
  forall R (netbox : Netbox R) (w : World R) (attrs : Dict),
    parent_unresolved w attrs ->
    (forall self,
        exists e, NetboxInterface.translate_attrs_for_netbox w self attrs = Raise e)
    /\ (forall self dev,
           device (dsync w) !! intf_device_name (objs w self) = Some dev ->
           attrs !! "mode" = None ->
           NetboxInterface.translate_attrs_for_netbox w self attrs
           = Raise (AttributeError "remote_id"))
    /\ (forall ids,
           exists e w', NetboxInterface.create netbox ids attrs w = (Raise e, w')
                        /\ trace w' = trace w /\ remote w' = remote w)
    /\ (forall self,
           dict_eq attrs (intf_attrs (objs w self)) = false ->
           exists e, NetboxInterface.update netbox self attrs w = (Raise e, w)).
Proof.
  intros R netbox w attrs H. repeat split.
  - intros self. apply translate_raises. exact H.
  - intros self dev. apply translate_raises_AttributeError. exact H.
  - intros ids.
    unfold NetboxInterface.create, NetboxInterface.super_create, NetboxInterface.translate.
    destruct (kwargs_clash NetboxInterface.identifiers attrs).
    + unfold mbind, M_bind, lift. eexists. eexists. repeat split.
    + unfold mbind, M_bind, alloc.
      cbn -[NetboxInterface.translate_attrs_for_netbox].
      match goal with
      | |- context [NetboxInterface.translate_attrs_for_netbox ?w1 ?s attrs] =>
          destruct (translate_raises w1 s attrs H) as [e He]; rewrite He
      end.
      eexists. eexists. repeat split.
  - intros self Hne.
    unfold NetboxInterface.update, NetboxInterface.get_attrs, NetboxInterface.translate.
    unfold mbind, M_bind, read.
    cbn -[NetboxInterface.translate_attrs_for_netbox]. rewrite Hne.
    destruct (translate_raises w self attrs H) as [e He]. rewrite He.
    eexists. reflexivity.
Qed.

Lemma C10_lag_member_unresolved_parent_raises_witness :
  let attrs : Dict :=
    <["is_lag_member" := VBool true]> (<["parent" := VStr "sw1__ae0"]> ∅) in
  NetboxInterface.translate_attrs_for_netbox Sample.world 1%nat attrs
  = Raise (AttributeError "remote_id")
  /\ (exists e w',
         NetboxInterface.create Sample.accepting (NetboxInterface.mkIds "sw1" "eth5")
           attrs Sample.world = (Raise e, w')
         /\ trace w' = trace Sample.world /\ remote w' = remote Sample.world)
  /\ (exists e,
         NetboxInterface.update Sample.accepting 1%nat attrs Sample.world
         = (Raise e, Sample.world)).
Proof.
  intros attrs.
  assert (H : parent_unresolved Sample.world attrs).
  { split.
    - exists (VBool true). split; reflexivity.
    - exists "sw1__ae0". split; reflexivity. }
  pose proof (C10_lag_member_unresolved_parent_raises Z Sample.accepting Sample.world
                attrs H) as (_ & Hattr & Hcreate & Hupdate).
  split; [ | split].
  - apply (Hattr 1%nat (mkDevice "sw1" (Some 5) (Some "10.0.0.1/24"))); reflexivity.
  - apply Hcreate.
  - apply Hupdate. reflexivity.
Defined.

(** *** The untagged VLAN *)


(** With a [mode] of ACCESS and no [access_vlan] key the subscript of line
    92 raises. *)
Lemma translate_mode_without_access_vlan :
  NetboxInterface.translate_attrs_for_netbox Sample.world 1%nat SampleAttrs.mode_access_only
  = Raise (KeyError "access_vlan").
Proof. vm_compute. reflexivity. Qed.

Lemma set_untagged_vlan_spec {R} (w : World R) (attrs p p' : Dict) (m : string) (v : PyVal) :
  attrs !! "mode" = Some (VStr m) ->
  m = "ACCESS" \/ m = "TRUNK" ->
  attrs !! "access_vlan" = Some v ->
  NetboxInterface.set_untagged_vlan w attrs p = Ok p' ->
  if truthy v
  then NetboxInterface.convert_vlan_to_nid w v = Ok (default VNone (p' !! "untagged_vlan"))
       /\ is_Some (p' !! "untagged_vlan")
  else p' !! "untagged_vlan" = Some VNone.
Proof.
  intros Hmode Hm Hav.
  unfold NetboxInterface.set_untagged_vlan, NetboxInterface.mode_in, has_and, getitem.
  rewrite Hmode, Hav.
  replace (py_in_strs (VStr m) ["TRUNK"; "ACCESS"]) with true
    by (destruct Hm as [-> | ->]; reflexivity).
  cbn. destruct (truthy v); cbn.
  - destruct (NetboxInterface.convert_vlan_to_nid w v) as [nid | e]; cbn; [ | discriminate].
    intros [= <-]. rewrite lookup_insert_eq. cbn. split; [reflexivity | eexists; reflexivity].
  - intros [= <-]. apply lookup_insert_eq.
Qed.



(** * Further properties of the translator *)

Section TranslateBlocks.
Context {R : Type}.
Variable w : World R.
Variable self : loc.
Variable attrs : Dict.

Import NetboxInterface.

Lemma set_type_other (k : string) (p : Dict) :
  k <> "type" -> set_type attrs p !! k = p !! k.
Proof.
  intros Hk. unfold set_type.
  repeat match goal with |- context [if ?c then _ else _] => destruct c end;
    apply lookup_insert_ne; congruence.
Qed.

(** The first block returns exactly when the device is in the store. *)
Lemma set_device_and_name_inv (p0 : Dict) :
  set_device_and_name w self ∅ = Ok p0 ->
  exists dev,
    device (dsync w) !! intf_device_name (objs w self) = Some dev
    /\ p0 = <["name" := VStr (intf_name (objs w self))]>
              (<["device" := of_opt_int (dev_remote_id dev)]> ∅).
Proof.
  unfold set_device_and_name. cbn.
  destruct (device (dsync w) !! intf_device_name (objs w self)) as [dev | ]; cbn;
    [ | discriminate].
  intros [= <-]. exists dev. split; reflexivity.
Qed.

Lemma set_device_and_name_missing (p : Dict) :
  device (dsync w) !! intf_device_name (objs w self) = None ->
  set_device_and_name w self p = Raise (AttributeError "remote_id").
Proof. intros H. unfold set_device_and_name. cbn. rewrite H. reflexivity. Qed.

(** What the pure blocks leave under a key none of them writes. *)
Lemma pure_blocks_other (k : string) (p : Dict) :
  k <> "type" -> k <> "mtu" -> k <> "description" -> k <> "mode" ->
  k <> "switchport_mode" ->
  set_mode attrs (set_description attrs (set_mtu attrs (set_type attrs p))) !! k = p !! k.
Proof.
  intros. rewrite set_mode_other, set_description_other, set_mtu_other, set_type_other;
    auto.
Qed.

(** The result under a key that only the pure blocks may write. *)
Lemma translate_pure_key (k : string) (p : Dict) :
  k <> "untagged_vlan" -> k <> "tagged_vlans" -> k <> "lag" ->
  translate_attrs_for_netbox w self attrs = Ok p ->
  exists p0,
    set_device_and_name w self ∅ = Ok p0
    /\ p !! k
       = set_mode attrs (set_description attrs (set_mtu attrs (set_type attrs p0))) !! k.
Proof.
  intros Hk1 Hk2 Hk3 H.
  destruct (translate_Ok_inv w self attrs p H) as (p0 & p1 & Hd & Hv & Hl).
  exists p0. split; [exact Hd | ].
  rewrite (set_lag_other w attrs k p1 p Hk3 Hl).
  apply (set_vlans_other w attrs k _ p1 Hk1 Hk2 Hv).
Qed.

(** The result under a key that only the VLAN blocks may write. *)
Lemma translate_vlan_key (k : string) (p : Dict) :
  k <> "lag" -> k <> "type" -> k <> "mtu" -> k <> "description" -> k <> "mode" ->
  k <> "switchport_mode" -> k <> "device" -> k <> "name" ->
  translate_attrs_for_netbox w self attrs = Ok p ->
  exists q p1, q !! k = None /\ set_vlans w attrs q = Ok p1 /\ p !! k = p1 !! k.
Proof.
  intros Hlag Ht Hm Hd Hmo Hsm Hdev Hn H.
  destruct (translate_Ok_inv w self attrs p H) as (p0 & p1 & Hd0 & Hv & Hl).
  destruct (set_device_and_name_inv p0 Hd0) as (dev & _ & ->).
  eexists. exists p1. split; [ | split; [exact Hv | ]].
  - rewrite pure_blocks_other by assumption.
    rewrite !lookup_insert_ne by congruence. apply lookup_empty.
  - apply (set_lag_other w attrs k p1 p Hlag Hl).
Qed.

End TranslateBlocks.

(** X1. The parameters the translator returns always hold [device] (the
    remote id of the device of the store), [name] and [type], and hold no
    key outside the ten that the blocks write. *)
Theorem translate_keys :
  forall R (w : World R) (self : loc) (attrs p : Dict),
    NetboxInterface.translate_attrs_for_netbox w self attrs = Ok p ->
    (exists dev,
        device (dsync w) !! intf_device_name (objs w self) = Some dev
        /\ p !! "device" = Some (of_opt_int (dev_remote_id dev)))
    /\ p !! "name" = Some (VStr (intf_name (objs w self)))
    /\ is_Some (p !! "type")
    /\ (forall k, is_Some (p !! k) ->
                  In k ["device"; "name"; "type"; "mtu"; "description"; "mode";
                        "switchport_mode"; "untagged_vlan"; "tagged_vlans"; "lag"]).
Proof.
  intros R w self attrs p H.
  destruct (translate_Ok_inv w self attrs p H) as (p0 & p1 & Hd & Hv & Hl).
  destruct (set_device_and_name_inv w self p0 Hd) as (dev & Hdev & ->).
  assert (Hframe : forall k, k <> "untagged_vlan" -> k <> "tagged_vlans" -> k <> "lag" ->
                             k <> "type" -> k <> "mtu" -> k <> "description" ->
                             k <> "mode" -> k <> "switchport_mode" ->
                             p !! k = (<["name" := VStr (intf_name (objs w self))]>
                                         (<["device" := of_opt_int (dev_remote_id dev)]> ∅
                                          : Dict)) !! k).
  { intros k H1 H2 H3 H4 H5 H6 H7 H8.
    rewrite (set_lag_other w attrs k p1 p H3 Hl).
    rewrite (set_vlans_other w attrs k _ p1 H1 H2 Hv).
    apply pure_blocks_other; assumption. }
  repeat split.
  - exists dev. split; [exact Hdev | ].
    rewrite Hframe by discriminate. reflexivity.
  - rewrite Hframe by discriminate. reflexivity.
  - rewrite (translate_type w self attrs p H).
    unfold NetboxInterface.set_type.
    repeat match goal with |- context [if ?c then _ else _] => destruct c end;
      rewrite lookup_insert_eq; eexists; reflexivity.
  - intros k [v Hk]. cbn.
    destruct (String.eqb_spec "device" k); [auto | ].
    destruct (String.eqb_spec "name" k); [auto | ].
    destruct (String.eqb_spec "type" k); [auto 10 | ].
    destruct (String.eqb_spec "mtu" k); [auto 10 | ].
    destruct (String.eqb_spec "description" k); [auto 10 | ].
    destruct (String.eqb_spec "mode" k); [auto 10 | ].
    destruct (String.eqb_spec "switchport_mode" k); [auto 10 | ].
    destruct (String.eqb_spec "untagged_vlan" k); [auto 10 | ].
    destruct (String.eqb_spec "tagged_vlans" k); [auto 10 | ].
    destruct (String.eqb_spec "lag" k); [auto 15 | ].
    exfalso. rewrite Hframe in Hk by congruence.
    rewrite !lookup_insert_ne in Hk by congruence.
    rewrite lookup_empty in Hk. discriminate.
Qed.

Lemma translate_keys_witness :
  exists p,
    NetboxInterface.translate_attrs_for_netbox Sample.world 1%nat SampleAttrs.access10 = Ok p
    /\ p !! "name" = Some (VStr "eth1")
    /\ is_Some (p !! "type")
    /\ (forall k, is_Some (p !! k) ->
                  In k ["device"; "name"; "type"; "mtu"; "description"; "mode";
                        "switchport_mode"; "untagged_vlan"; "tagged_vlans"; "lag"]).
Proof.
  eexists. split; [vm_compute; reflexivity | ].
  apply (translate_keys Z Sample.world 1%nat SampleAttrs.access10 _ eq_refl).
Defined.

(** X2. With the import of VLANs set to "no" the returned parameters hold
    neither [untagged_vlan] nor [tagged_vlans], and the VLAN attributes are
    not read at all: with the device in the store and no [is_lag_member]
    attribute the translator returns, whatever [mode], [access_vlan] and
    [allowed_vlans] are (or are not) in the candidate attributes. *)
Theorem translate_import_vlans_off :
  forall R (w : World R) (self : loc) (attrs : Dict),
    import_vlans w = VStr "no" ->
    (forall p, NetboxInterface.translate_attrs_for_netbox w self attrs = Ok p ->
               p !! "untagged_vlan" = None /\ p !! "tagged_vlans" = None)
    /\ (forall dev,
           device (dsync w) !! intf_device_name (objs w self) = Some dev ->
           attrs !! "is_lag_member" = None ->
           exists p, NetboxInterface.translate_attrs_for_netbox w self attrs = Ok p).
Proof.
  intros R w self attrs Hoff. split.
  - intros p H. split.
    + destruct (translate_vlan_key w self attrs "untagged_vlan" p) as (q & p1 & Hq & Hv & ->);
        try discriminate; [exact H | ].
      unfold NetboxInterface.set_vlans in Hv. rewrite Hoff in Hv. cbn in Hv.
      injection Hv as <-. exact Hq.
    + destruct (translate_vlan_key w self attrs "tagged_vlans" p) as (q & p1 & Hq & Hv & ->);
        try discriminate; [exact H | ].
      unfold NetboxInterface.set_vlans in Hv. rewrite Hoff in Hv. cbn in Hv.
      injection Hv as <-. exact Hq.
  - intros dev Hdev Hlag.
    unfold NetboxInterface.translate_attrs_for_netbox, NetboxInterface.set_device_and_name.
    cbn. rewrite Hdev. cbn.
    unfold NetboxInterface.set_vlans. rewrite Hoff. cbn.
    unfold NetboxInterface.set_lag, has_and. rewrite Hlag. cbn.
    eexists. reflexivity.
Qed.

Lemma translate_import_vlans_off_witness :
  exists p,
    NetboxInterface.translate_attrs_for_netbox SampleMore.world_no_vlans 1%nat
      SampleAttrs.mode_access_only = Ok p
    /\ p !! "untagged_vlan" = None /\ p !! "tagged_vlans" = None.
Proof.
  destruct (proj2 (translate_import_vlans_off Z SampleMore.world_no_vlans 1%nat
                     SampleAttrs.mode_access_only eq_refl)
              (mkDevice "sw1" (Some 5) (Some "10.0.0.1/24")) eq_refl eq_refl) as [p Hp].
  exists p. split; [exact Hp | ].
  exact (proj1 (translate_import_vlans_off Z SampleMore.world_no_vlans 1%nat
                  SampleAttrs.mode_access_only eq_refl) p Hp).
Defined.

(** X3. Scalars.  [mtu] is in the returned parameters exactly when it is in
    the candidate attributes, with the same value (a null included);
    [description], when present, is passed on if it is a true value and
    replaced by the empty string otherwise, so that a returned description
    is never null. *)
Theorem translate_mtu_description :
  forall R (w : World R) (self : loc) (attrs p : Dict),
    NetboxInterface.translate_attrs_for_netbox w self attrs = Ok p ->
    p !! "mtu" = attrs !! "mtu"
    /\ p !! "description"
       = (match attrs !! "description" with
          | Some v => Some (if truthy v then v else VStr "")
          | None => None
          end)
    /\ p !! "description" <> Some VNone.
Proof.
  intros R w self attrs p H.
  assert (Hd : p !! "description"
               = match attrs !! "description" with
                 | Some v => Some (if truthy v then v else VStr "")
                 | None => None
                 end).
  { destruct (translate_pure_key w self attrs "description" p) as (p0 & Hp0 & ->);
      try discriminate; [exact H | ].
    destruct (set_device_and_name_inv w self p0 Hp0) as (dev & _ & ->).
    rewrite set_mode_other by discriminate.
    unfold NetboxInterface.set_description.
    destruct (attrs !! "description") as [v | ].
    - apply lookup_insert_eq.
    - rewrite set_mtu_other, set_type_other by discriminate. reflexivity. }
  split; [ | split; [exact Hd | ]].
  - destruct (translate_pure_key w self attrs "mtu" p) as (p0 & Hp0 & ->);
      try discriminate; [exact H | ].
    destruct (set_device_and_name_inv w self p0 Hp0) as (dev & _ & ->).
    rewrite set_mode_other, set_description_other by discriminate.
    unfold NetboxInterface.set_mtu.
    destruct (attrs !! "mtu") as [v | ].
    + apply lookup_insert_eq.
    + rewrite set_type_other by discriminate. reflexivity.
  - rewrite Hd. destruct (attrs !! "description") as [v | ]; [ | discriminate].
    destruct v as [ | b | z | s | l]; cbn; try discriminate.
    + destruct b; discriminate.
    + destruct (negb (z =? 0)); discriminate.
    + destruct (negb (String.eqb s "")); discriminate.
    + destruct l; discriminate.
Qed.

Lemma translate_mtu_description_witness :
  exists p,
    NetboxInterface.translate_attrs_for_netbox Sample.world 1%nat SampleMore.scalars = Ok p
    /\ p !! "mtu" = Some (VInt 9000)
    /\ p !! "description" = Some (VStr "")
    /\ p !! "description" <> Some VNone.
Proof.
  eexists. split; [vm_compute; reflexivity | ].
  apply (translate_mtu_description Z Sample.world 1%nat SampleMore.scalars _ eq_refl).
Defined.

(** X4. The switchport mode.  "ACCESS" is sent as [mode="access"]; "TRUNK"
    is sent under another key, as [switchport_mode="tagged"], and leaves
    [mode] out; any other value sets neither.  So a returned [mode] is
    always "access" and a returned [switchport_mode] always "tagged". *)
Theorem translate_switchport_mode :
  forall R (w : World R) (self : loc) (attrs p : Dict),
    NetboxInterface.translate_attrs_for_netbox w self attrs = Ok p ->
    (attrs !! "switchport_mode" = Some (VStr "ACCESS") ->
     p !! "mode" = Some (VStr "access") /\ p !! "switchport_mode" = None)
    /\ (attrs !! "switchport_mode" = Some (VStr "TRUNK") ->
        p !! "mode" = None /\ p !! "switchport_mode" = Some (VStr "tagged"))
    /\ (forall v, p !! "mode" = Some v -> v = VStr "access")
    /\ (forall v, p !! "switchport_mode" = Some v -> v = VStr "tagged").
Proof.
  intros R w self attrs p H.
  destruct (translate_pure_key w self attrs "mode" p) as (p0 & Hp0 & Hm);
    try discriminate; [exact H | ].
  destruct (translate_pure_key w self attrs "switchport_mode" p) as (p0' & Hp0' & Hs);
    try discriminate; [exact H | ].
  rewrite Hp0 in Hp0'. injection Hp0' as <-.
  destruct (set_device_and_name_inv w self p0 Hp0) as (dev & _ & ->).
  rewrite Hm, Hs. clear Hm Hs H Hp0.
  unfold NetboxInterface.set_mode, has_and.
  destruct (attrs !! "switchport_mode") as [v | ];
    [destruct (py_eq v (VStr "ACCESS")) eqn:Ha;
     [ | destruct (py_eq v (VStr "TRUNK")) eqn:Ht] | ];
    rewrite ?lookup_insert_eq, ?lookup_insert_ne by discriminate;
    rewrite !set_description_other, !set_mtu_other, !set_type_other by discriminate;
    rewrite !lookup_insert_ne, !lookup_empty by discriminate;
    (split; [ | split; [ | split]]);
    try (intros [= ->]; discriminate);
    try (intros v' [= <-]; reflexivity);
    try (intros v'; discriminate);
    try discriminate;
    try (intros _; split; reflexivity).
Qed.

Lemma translate_switchport_mode_witness :
  exists p,
    NetboxInterface.translate_attrs_for_netbox Sample.world 1%nat SampleMore.trunk = Ok p
    /\ p !! "mode" = None /\ p !! "switchport_mode" = Some (VStr "tagged").
Proof.
  eexists. split; [vm_compute; reflexivity | ].
  apply (proj1 (proj2 (translate_switchport_mode Z Sample.world 1%nat SampleMore.trunk _
                         eq_refl))).
  reflexivity.
Defined.

(** X5. When the device of the interface is not in the store, the
    translator raises on the attribute access of line 67, whatever the
    candidate attributes; create then raises before any remote call, and so
    does update unless the candidate attributes equal the recorded ones. *)
Theorem translate_device_missing :
  forall R (netbox : Netbox R) (w : World R) (self : loc) (attrs : Dict),
    device (dsync w) !! intf_device_name (objs w self) = None ->
    NetboxInterface.translate_attrs_for_netbox w self attrs
    = Raise (AttributeError "remote_id")
    /\ (dict_eq attrs (intf_attrs (objs w self)) = false ->
        NetboxInterface.update netbox self attrs w
        = (Raise (AttributeError "remote_id"), w)).
Proof.
  intros R netbox w self attrs Hdev.
  assert (Ht : NetboxInterface.translate_attrs_for_netbox w self attrs
               = Raise (AttributeError "remote_id")).
  { unfold NetboxInterface.translate_attrs_for_netbox.
    rewrite (set_device_and_name_missing w self ∅ Hdev). reflexivity. }
  split; [exact Ht | ].
  intros Hne.
  unfold NetboxInterface.update, NetboxInterface.get_attrs, NetboxInterface.translate.
  unfold mbind, M_bind, read.
  cbn -[NetboxInterface.translate_attrs_for_netbox]. rewrite Hne, Ht. reflexivity.
Qed.

Lemma translate_device_missing_witness :
  NetboxInterface.translate_attrs_for_netbox SampleMore.world_orphan 0%nat ∅
  = Raise (AttributeError "remote_id")
  /\ NetboxInterface.update Sample.accepting 0%nat SampleMore.scalars SampleMore.world_orphan
     = (Raise (AttributeError "remote_id"), SampleMore.world_orphan).
Proof.
  split.
  - apply (proj1 (translate_device_missing Z Sample.accepting SampleMore.world_orphan
                    0%nat ∅ eq_refl)).
  - apply (proj2 (translate_device_missing Z Sample.accepting SampleMore.world_orphan
                    0%nat SampleMore.scalars eq_refl)).
    reflexivity.
Defined.

(** Create on an interface whose device is not in the store. *)
Lemma interface_create_device_missing {R} (netbox : Netbox R) (w : World R)
      (ids : NetboxInterface.Ids) (attrs : Dict) :
  kwargs_clash NetboxInterface.identifiers attrs = false ->
  device (dsync w) !! NetboxInterface.ids_device_name ids = None ->
  exists w',
    NetboxInterface.create netbox ids attrs w = (Raise (AttributeError "remote_id"), w')
    /\ trace w' = trace w /\ remote w' = remote w /\ dsync w' = dsync w.
Proof.
  intros Hclash Hdev.
  unfold NetboxInterface.create, NetboxInterface.super_create, NetboxInterface.translate.
  rewrite Hclash.
  unfold mbind, M_bind, alloc.
  cbn -[NetboxInterface.translate_attrs_for_netbox].
  unfold NetboxInterface.translate_attrs_for_netbox.
  rewrite set_device_and_name_missing.
  - cbn. eexists. repeat split.
  - cbn. rewrite Nat.eqb_refl. cbn. exact Hdev.
Qed.

(** X6. With the import of VLANs on, a [mode] of "ACCESS" or "TRUNK" and no
    [access_vlan] key in the candidate attributes, the translator raises
    [KeyError] on the subscript of line 92 (given the device is in the
    store). *)
Theorem translate_access_vlan_missing :
  forall R (w : World R) (self : loc) (attrs : Dict) (dev : NetboxDevice) (m : string),
    device (dsync w) !! intf_device_name (objs w self) = Some dev ->
    py_eq (import_vlans w) (VStr "no") = false ->
    attrs !! "mode" = Some (VStr m) ->
    m = "ACCESS" \/ m = "TRUNK" ->
    attrs !! "access_vlan" = None ->
    NetboxInterface.translate_attrs_for_netbox w self attrs = Raise (KeyError "access_vlan").
Proof.
  intros R w self attrs dev m Hdev Himport Hmode Hm Hav.
  unfold NetboxInterface.translate_attrs_for_netbox, NetboxInterface.set_device_and_name.
  cbn. rewrite Hdev. cbn.
  unfold NetboxInterface.set_vlans. rewrite Himport. cbn.
  unfold NetboxInterface.set_untagged_vlan, NetboxInterface.mode_in, has_and, getitem.
  rewrite Hmode, Hav.
  replace (py_in_strs (VStr m) ["TRUNK"; "ACCESS"]) with true
    by (destruct Hm as [-> | ->]; reflexivity).
  reflexivity.
Qed.

Lemma translate_access_vlan_missing_witness :
  NetboxInterface.translate_attrs_for_netbox Sample.world 1%nat SampleMore.mode_trunk
  = Raise (KeyError "access_vlan").
Proof.
  apply (translate_access_vlan_missing Z Sample.world 1%nat SampleMore.mode_trunk
           (mkDevice "sw1" (Some 5) (Some "10.0.0.1/24")) "TRUNK").
  - reflexivity.
  - reflexivity.
  - reflexivity.
  - right. reflexivity.
  - reflexivity.
Defined.

(** The untagged VLAN written by the VLAN blocks is the one the translator
    returns. *)
Lemma translate_untagged_vlan {R} (w : World R) (self : loc) (attrs p : Dict) :
  py_eq (import_vlans w) (VStr "no") = false ->
  NetboxInterface.translate_attrs_for_netbox w self attrs = Ok p ->
  exists q pu,
    q !! "untagged_vlan" = None
    /\ NetboxInterface.set_untagged_vlan w attrs q = Ok pu
    /\ p !! "untagged_vlan" = pu !! "untagged_vlan".
Proof.
  intros Himport H.
  destruct (translate_vlan_key w self attrs "untagged_vlan" p) as (q & p1 & Hq & Hv & ->);
    try discriminate; [exact H | ].
  unfold NetboxInterface.set_vlans in Hv. rewrite Himport in Hv. cbn in Hv.
  destruct (NetboxInterface.set_untagged_vlan w attrs q) as [pu | e] eqn:Hu;
    cbn in Hv; [ | discriminate].
  exists q, pu. split; [exact Hq | split; [exact Hu | ]].
  apply (set_tagged_vlans_other w attrs "untagged_vlan" pu p1 ltac:(discriminate) Hv).
Qed.

(** The tagged VLANs likewise. *)
Lemma translate_tagged_vlans {R} (w : World R) (self : loc) (attrs p : Dict) :
  py_eq (import_vlans w) (VStr "no") = false ->
  NetboxInterface.translate_attrs_for_netbox w self attrs = Ok p ->
  exists q pt,
    q !! "tagged_vlans" = None
    /\ NetboxInterface.set_tagged_vlans w attrs q = Ok pt
    /\ p !! "tagged_vlans" = pt !! "tagged_vlans".
Proof.
  intros Himport H.
  destruct (translate_vlan_key w self attrs "tagged_vlans" p) as (q & p1 & Hq & Hv & ->);
    try discriminate; [exact H | ].
  unfold NetboxInterface.set_vlans in Hv. rewrite Himport in Hv. cbn in Hv.
  destruct (NetboxInterface.set_untagged_vlan w attrs q) as [pu | e] eqn:Hu;
    cbn in Hv; [ | discriminate].
  exists pu, p1. split; [ | split; [exact Hv | reflexivity]].
  rewrite (set_untagged_vlan_other w attrs "tagged_vlans" q pu ltac:(discriminate) Hu).
  exact Hq.
Qed.

(** X7. An access VLAN that the store does not hold is not an error: with
    the import of VLANs on, a [mode] of "ACCESS" or "TRUNK" and an
    [access_vlan] naming a VLAN absent from the store, the returned
    parameters set [untagged_vlan] to null, as they do for a VLAN of the
    store that has no remote id. *)
Theorem translate_untagged_vlan_unresolved :
  forall R (w : World R) (self : loc) (attrs p : Dict) (m uid : string),
    py_eq (import_vlans w) (VStr "no") = false ->
    attrs !! "mode" = Some (VStr m) ->
    m = "ACCESS" \/ m = "TRUNK" ->
    attrs !! "access_vlan" = Some (VStr uid) ->
    uid <> "" ->
    vlan (dsync w) !! uid = None
    \/ (exists vl, vlan (dsync w) !! uid = Some vl /\ vlan_remote_id vl = None) ->
    NetboxInterface.translate_attrs_for_netbox w self attrs = Ok p ->
    p !! "untagged_vlan" = Some VNone.
Proof.
  intros R w self attrs p m uid Himport Hmode Hm Hav Hne Hvlan H.
  destruct (translate_untagged_vlan w self attrs p Himport H) as (q & pu & _ & Hu & ->).
  pose proof (set_untagged_vlan_spec w attrs q pu m (VStr uid) Hmode Hm Hav Hu) as Hs.
  cbn in Hs. destruct (String.eqb_spec uid ""); [contradiction | ]. cbn in Hs.
  destruct Hs as [Hconv [x Hx]]. rewrite Hx in *. cbn in Hconv.
  unfold NetboxInterface.convert_vlan_to_nid in Hconv. cbn in Hconv.
  destruct Hvlan as [Hnone | (vl & Hvl & Hrid)].
  - rewrite Hnone in Hconv. cbn in Hconv. congruence.
  - rewrite Hvl in Hconv. cbn in Hconv. rewrite Hrid in Hconv. cbn in Hconv. congruence.
Qed.

Lemma translate_untagged_vlan_unresolved_witness :
  exists p,
    NetboxInterface.translate_attrs_for_netbox Sample.world 1%nat SampleMore.mode_access99
    = Ok p
    /\ p !! "untagged_vlan" = Some VNone.
Proof.
  eexists. split; [vm_compute; reflexivity | ].
  apply (translate_untagged_vlan_unresolved Z Sample.world 1%nat SampleMore.mode_access99 _
           "ACCESS" "99" eq_refl eq_refl (or_introl eq_refl) eq_refl).
  - discriminate.
  - left. reflexivity.
  - reflexivity.
Defined.

Lemma comprehension_vlan_nids {R} (w : World R) (uids : list string) :
  comprehension (NetboxInterface.convert_vlan_to_nid w) (map VStr uids)
  = Ok (map (vlan_nid w) uids).
Proof.
  induction uids as [ | u uids IH]; [reflexivity | ].
  cbn. rewrite IH. unfold vlan_nid at 2.
  destruct (vlan (dsync w) !! u); reflexivity.
Qed.

(** X8. Tagged VLANs.  With the import of VLANs on, a [mode] of "TRUNK" or
    "L3_SUB_VLAN" and a non-empty list of VLAN ids as [allowed_vlans], the
    returned [tagged_vlans] is the list, in the same order and of the same
    length, of the remote ids of these VLANs in the store, with a null for
    each VLAN that the store does not hold or that has no remote id. *)
Theorem translate_tagged_vlans_list :
  forall R (w : World R) (self : loc) (attrs p : Dict) (m : string) (uids : list string),
    py_eq (import_vlans w) (VStr "no") = false ->
    attrs !! "mode" = Some (VStr m) ->
    m = "TRUNK" \/ m = "L3_SUB_VLAN" ->
    attrs !! "allowed_vlans" = Some (VList (map VStr uids)) ->
    uids <> [] ->
    NetboxInterface.translate_attrs_for_netbox w self attrs = Ok p ->
    p !! "tagged_vlans" = Some (VList (map (vlan_nid w) uids)).
Proof.
  intros R w self attrs p m uids Himport Hmode Hm Hallowed Hne H.
  destruct (translate_tagged_vlans w self attrs p Himport H) as (q & pt & _ & Ht & ->).
  unfold NetboxInterface.set_tagged_vlans, NetboxInterface.mode_in, has_and, getitem in Ht.
  rewrite Hmode, Hallowed in Ht.
  replace (py_in_strs (VStr m) ["TRUNK"; "L3_SUB_VLAN"]) with true in Ht
    by (destruct Hm as [-> | ->]; reflexivity).
  destruct uids as [ | u uids]; [contradiction | ].
  cbn [truthy map andb] in Ht. change (VStr u :: map VStr uids) with (map VStr (u :: uids)) in Ht.
  cbn [py_iter mbind Outcome_bind] in Ht.
  rewrite comprehension_vlan_nids in Ht. cbn in Ht.
  injection Ht as <-. apply lookup_insert_eq.
Qed.

Lemma translate_tagged_vlans_list_witness :
  exists p,
    NetboxInterface.translate_attrs_for_netbox Sample.world 1%nat SampleMore.subif = Ok p
    /\ p !! "tagged_vlans" = Some (VList [VInt 77; VNone]).
Proof.
  eexists. split; [vm_compute; reflexivity | ].
  apply (translate_tagged_vlans_list Z Sample.world 1%nat SampleMore.subif _
           "L3_SUB_VLAN" ["10"; "99"] eq_refl eq_refl (or_intror eq_refl) eq_refl).
  - discriminate.
  - reflexivity.
Defined.

(** X9. Which modes write which VLAN field.  With the import of VLANs on:
    a [mode] of "TRUNK" or "L3_SUB_VLAN" without [allowed_vlans], or with an
    empty or null one, sets [tagged_vlans] to the empty list; a [mode] of
    "ACCESS" never writes [tagged_vlans], a [mode] of "L3_SUB_VLAN" never
    writes [untagged_vlan] (whatever [allowed_vlans] and [access_vlan] are),
    and without a [mode] attribute neither is written. *)
Theorem translate_vlan_fields_by_mode :
  forall R (w : World R) (self : loc) (attrs p : Dict),
    py_eq (import_vlans w) (VStr "no") = false ->
    NetboxInterface.translate_attrs_for_netbox w self attrs = Ok p ->
    (forall m,
        attrs !! "mode" = Some (VStr m) ->
        m = "TRUNK" \/ m = "L3_SUB_VLAN" ->
        attrs !! "allowed_vlans" = None
        \/ (exists v, attrs !! "allowed_vlans" = Some v /\ truthy v = false) ->
        p !! "tagged_vlans" = Some (VList []))
    /\ (attrs !! "mode" = Some (VStr "ACCESS") -> p !! "tagged_vlans" = None)
    /\ (attrs !! "mode" = Some (VStr "L3_SUB_VLAN") -> p !! "untagged_vlan" = None)
    /\ (attrs !! "mode" = None ->
        p !! "untagged_vlan" = None /\ p !! "tagged_vlans" = None).
Proof.
  intros R w self attrs p Himport H.
  destruct (translate_tagged_vlans w self attrs p Himport H) as (qt & pt & Hqt & Ht & ->).
  destruct (translate_untagged_vlan w self attrs p Himport H) as (qu & pu & Hqu & Hu & ->).
  unfold NetboxInterface.set_tagged_vlans, NetboxInterface.mode_in, has_and, has in Ht.
  unfold NetboxInterface.set_untagged_vlan, NetboxInterface.mode_in, has_and in Hu.
  split; [ | split; [ | split]].
  - intros m Hmode Hm Hallowed. rewrite Hmode in Ht.
    replace (py_in_strs (VStr m) ["TRUNK"; "L3_SUB_VLAN"]) with true in Ht
      by (destruct Hm as [-> | ->]; reflexivity).
    unfold has_and in Ht.
    destruct Hallowed as [Hnone | (v & Hv & Hfalse)].
    + rewrite Hnone in Ht. cbn in Ht. injection Ht as <-. apply lookup_insert_eq.
    + rewrite Hv, Hfalse in Ht. cbn in Ht. injection Ht as <-. apply lookup_insert_eq.
  - intros Hmode. rewrite Hmode in Ht. cbn in Ht. injection Ht as <-. exact Hqt.
  - intros Hmode. rewrite Hmode in Hu. cbn in Hu. injection Hu as <-. exact Hqu.
  - intros Hmode. rewrite Hmode in Ht, Hu. cbn in Ht, Hu.
    injection Ht as <-. injection Hu as <-. split; assumption.
Qed.

Lemma translate_vlan_fields_by_mode_witness :
  exists p,
    NetboxInterface.translate_attrs_for_netbox Sample.world 1%nat SampleMore.subif_bare = Ok p
    /\ p !! "tagged_vlans" = Some (VList [])
    /\ p !! "untagged_vlan" = None.
Proof.
  eexists. split; [vm_compute; reflexivity | ].
  pose proof (translate_vlan_fields_by_mode Z Sample.world 1%nat SampleMore.subif_bare _
                eq_refl eq_refl) as (Hclear & _ & Hsub & _).
  split.
  - apply (Hclear "L3_SUB_VLAN" eq_refl (or_intror eq_refl)). left. reflexivity.
  - apply Hsub. reflexivity.
Defined.

Lemma translate_lag {R} (w : World R) (self : loc) (attrs p : Dict) :
  NetboxInterface.translate_attrs_for_netbox w self attrs = Ok p ->
  exists p1, p1 !! "lag" = None /\ NetboxInterface.set_lag w attrs p1 = Ok p.
Proof.
  intros H.
  destruct (translate_Ok_inv w self attrs p H) as (p0 & p1 & Hd & Hv & Hl).
  destruct (set_device_and_name_inv w self p0 Hd) as (dev & _ & ->).
  exists p1. split; [ | exact Hl].
  rewrite (set_vlans_other w attrs "lag" _ p1 ltac:(discriminate) ltac:(discriminate) Hv).
  rewrite pure_blocks_other by discriminate. reflexivity.
Qed.

(** X10. The LAG field.  If the translator returns for candidate attributes
    that flag a LAG member, then [parent] is the unique id of an interface
    of the store and [lag] is that interface's remote id (null when it has
    none).  When [is_lag_member] is present and false, [lag] is an explicit
    null; when it is absent, [lag] is left out. *)
Theorem translate_lag_field :
  forall R (w : World R) (self : loc) (attrs p : Dict),
    NetboxInterface.translate_attrs_for_netbox w self attrs = Ok p ->
    (forall v, attrs !! "is_lag_member" = Some v -> truthy v = true ->
               exists uid l,
                 attrs !! "parent" = Some (VStr uid)
                 /\ interface (dsync w) !! uid = Some l
                 /\ p !! "lag" = Some (of_opt_int (intf_remote_id (objs w l))))
    /\ (forall v, attrs !! "is_lag_member" = Some v -> truthy v = false ->
                  p !! "lag" = Some VNone)
    /\ (attrs !! "is_lag_member" = None -> p !! "lag" = None).
Proof.
  intros R w self attrs p H.
  destruct (translate_lag w self attrs p H) as (p1 & Hp1 & Hl).
  unfold NetboxInterface.set_lag, has_and, getitem in Hl.
  split; [ | split].
  - intros v Hv Ht. rewrite Hv, Ht in Hl.
    destruct (attrs !! "parent") as [parent | ]; cbn in Hl; [ | discriminate].
    destruct parent as [ | b | z | uid | vs]; cbn in Hl; try discriminate.
    destruct (interface (dsync w) !! uid) as [l | ] eqn:Hi; cbn in Hl; [ | discriminate].
    injection Hl as <-. exists uid, l. repeat split; [exact Hi | apply lookup_insert_eq].
  - intros v Hv Hf. rewrite Hv, Hf in Hl. cbn in Hl.
    injection Hl as <-. apply lookup_insert_eq.
  - intros Hnone. rewrite Hnone in Hl. injection Hl as <-. exact Hp1.
Qed.

Lemma translate_lag_field_witness :
  exists p,
    NetboxInterface.translate_attrs_for_netbox Sample.world 1%nat SampleMore.lag_member = Ok p
    /\ exists uid l,
        SampleMore.lag_member !! "parent" = Some (VStr uid)
        /\ interface (dsync Sample.world) !! uid = Some l
        /\ p !! "lag" = Some (of_opt_int (intf_remote_id (objs Sample.world l))).
Proof.
  eexists. split; [vm_compute; reflexivity | ].
  apply (proj1 (translate_lag_field Z Sample.world 1%nat SampleMore.lag_member _ eq_refl)
           (VBool true)); reflexivity.
Defined.

(** * Further properties of the operations *)

(** ** [NetboxInterface.create] *)

(** X11. An interface create whose attributes repeat no keyword of the ids,
    whose translation returns and which the remote system accepts returns a
    new object that carries the identity, the candidate attributes and the
    id of the remote record, and is neither connected nor registered in the
    store; the objects that existed keep their state, and the trace grows
    by the remote create and one DEBUG log record. *)
Theorem interface_create_accepted :
  forall R (netbox : Netbox R) (w : World R) (ids : NetboxInterface.Ids)
         (attrs p : Dict) (intf : NbRecord) (r' : R),
    kwargs_clash NetboxInterface.identifiers attrs = false ->
    NetboxInterface.translate_attrs_for_netbox
      (NetboxInterface.super_create ids attrs w).2 (next w) attrs = Ok p ->
    nb_create netbox dcim_interfaces p (remote w) = (Ok intf, r') ->
    exists w' msg,
      NetboxInterface.create netbox ids attrs w = (Ok (RetModel (next w)), w')
      /\ objs w' (next w)
         = mkInterface (NetboxInterface.ids_name ids) (NetboxInterface.ids_device_name ids)
                       [] attrs (Some (rec_id intf)) None
      /\ (forall l, l <> next w -> objs w' l = objs w l)
      /\ dsync w' = dsync w
      /\ remote w' = r'
      /\ trace w' = (trace w ++ [RemoteCreate dcim_interfaces p; Logged DEBUG msg])%list.
Proof.
  intros R netbox w ids attrs p intf r' Hclash Ht Hc.
  unfold NetboxInterface.create, NetboxInterface.translate.
  unfold mbind at 1. unfold M_bind at 1.
  destruct (NetboxInterface.super_create ids attrs w) as [o w0] eqn:Hsc.
  unfold NetboxInterface.super_create in Hsc. rewrite Hclash in Hsc.
  unfold alloc in Hsc. injection Hsc as <- <-.
  cbn [snd] in Ht.
  unfold mbind at 1. unfold M_bind at 1. rewrite Ht.
  unfold mbind, M_bind, remote_create, log, assign, mret, M_ret.
  cbn [remote emit set_remote]. rewrite Hc.
  eexists. eexists. split; [reflexivity | ].
  cbn. rewrite Nat.eqb_refl. repeat split.
  - intros l Hl. destruct (Nat.eqb_spec l (next w)); [contradiction | reflexivity].
  - rewrite <- app_assoc. reflexivity.
Qed.

Lemma interface_create_accepted_witness :
  exists w' msg,
    NetboxInterface.create Sample.accepting (NetboxInterface.mkIds "sw1" "eth5")
      SampleMore.scalars Sample.world = (Ok (RetModel 4%nat), w')
    /\ objs w' 4%nat = mkInterface "eth5" "sw1" [] SampleMore.scalars (Some 100) None
    /\ (forall l, l <> 4%nat -> objs w' l = objs Sample.world l)
    /\ dsync w' = dsync Sample.world
    /\ remote w' = 101
    /\ trace w'
       = (trace Sample.world
            ++ [RemoteCreate dcim_interfaces
                  (<["device" := VInt 5]>
                     (<["name" := VStr "eth5"]>
                        (<["type" := VStr "other"]>
                           (<["mtu" := VInt 9000]> (<["description" := VStr ""]> ∅)))));
                Logged DEBUG msg])%list.
Proof.
  apply (interface_create_accepted Z Sample.accepting Sample.world
           (NetboxInterface.mkIds "sw1" "eth5") SampleMore.scalars _
           (mkRecord dcim_interfaces 100) 101).
  - reflexivity.
  - vm_compute. reflexivity.
  - reflexivity.
Defined.

(** X12. Interface create catches nothing.  When the attributes repeat a
    keyword of the ids (or [dsync]), line 125 raises [TypeError] and the
    world is untouched.  Otherwise: when the device named by the ids is not
    in the store it raises before any remote call; when the remote create
    raises, be it the validation/conflict error, it raises the same
    exception, after the remote call and without a log record.  In every
    case the store is as before. *)
Theorem interface_create_raises :
  forall R (netbox : Netbox R) (w : World R) (ids : NetboxInterface.Ids) (attrs : Dict),
    (kwargs_clash NetboxInterface.identifiers attrs = true ->
     NetboxInterface.create netbox ids attrs w = (Raise TypeError, w))
    /\ (kwargs_clash NetboxInterface.identifiers attrs = false ->
        device (dsync w) !! NetboxInterface.ids_device_name ids = None ->
        exists w',
          NetboxInterface.create netbox ids attrs w
          = (Raise (AttributeError "remote_id"), w')
          /\ trace w' = trace w /\ remote w' = remote w /\ dsync w' = dsync w)
    /\ (forall p e r',
           kwargs_clash NetboxInterface.identifiers attrs = false ->
           NetboxInterface.translate_attrs_for_netbox
             (NetboxInterface.super_create ids attrs w).2 (next w) attrs = Ok p ->
           nb_create netbox dcim_interfaces p (remote w) = (Raise e, r') ->
           exists w',
             NetboxInterface.create netbox ids attrs w = (Raise e, w')
             /\ trace w' = (trace w ++ [RemoteCreate dcim_interfaces p])%list
             /\ remote w' = r' /\ dsync w' = dsync w
             /\ intf_remote_id (objs w' (next w)) = None).
Proof.
  intros R netbox w ids attrs. split; [ | split].
  - intros Hclash.
    unfold NetboxInterface.create, NetboxInterface.super_create. rewrite Hclash.
    reflexivity.
  - apply interface_create_device_missing.
  - intros p e r' Hclash Ht Hc.
    unfold NetboxInterface.create, NetboxInterface.translate.
    unfold mbind at 1. unfold M_bind at 1.
    destruct (NetboxInterface.super_create ids attrs w) as [o w0] eqn:Hsc.
    unfold NetboxInterface.super_create in Hsc. rewrite Hclash in Hsc.
    unfold alloc in Hsc. injection Hsc as <- <-.
    cbn [snd] in Ht.
    unfold mbind at 1. unfold M_bind at 1. rewrite Ht.
    unfold mbind, M_bind, remote_create.
    cbn [remote emit set_remote]. rewrite Hc.
    eexists. split; [reflexivity | ].
    cbn. rewrite Nat.eqb_refl. repeat split.
Qed.

Lemma interface_create_raises_witness :
  NetboxInterface.create Sample.accepting (NetboxInterface.mkIds "sw1" "eth0")
    SampleMore.with_name Sample.world = (Raise TypeError, Sample.world)
  /\ (exists w',
         NetboxInterface.create Sample.accepting (NetboxInterface.mkIds "sw7" "eth0") ∅
           Sample.world = (Raise (AttributeError "remote_id"), w')
         /\ trace w' = trace Sample.world /\ remote w' = remote Sample.world
         /\ dsync w' = dsync Sample.world)
  /\ (exists p w',
         NetboxInterface.create Sample.refusing (NetboxInterface.mkIds "sw1" "eth5") ∅
           Sample.world = (Raise RequestError, w')
         /\ trace w' = (trace Sample.world ++ [RemoteCreate dcim_interfaces p])%list
         /\ remote w' = 100 /\ dsync w' = dsync Sample.world
         /\ intf_remote_id (objs w' (next Sample.world)) = None).
Proof.
  split; [ | split].
  - apply (proj1 (interface_create_raises Z Sample.accepting Sample.world
                    (NetboxInterface.mkIds "sw1" "eth0") SampleMore.with_name)).
    reflexivity.
  - apply (proj1 (proj2 (interface_create_raises Z Sample.accepting Sample.world
                           (NetboxInterface.mkIds "sw7" "eth0") ∅))).
    + reflexivity.
    + reflexivity.
  - eexists.
    apply (proj2 (proj2 (interface_create_raises Z Sample.refusing Sample.world
                           (NetboxInterface.mkIds "sw1" "eth5") ∅)) _ RequestError 100).
    + reflexivity.
    + vm_compute. reflexivity.
    + reflexivity.
Defined.

(** ** [NetboxInterface.update] *)

Lemma dict_eq_spec (d1 d2 : Dict) : dict_eq d1 d2 = true <-> same_dict d1 d2.
Proof.
  unfold dict_eq, same_dict. rewrite andb_true_iff, Nat.eqb_eq, forallb_forall. split.
  - intros [Hsize Hall].
    assert (Hsub : forall k v, d1 !! k = Some v ->
                               exists v', d2 !! k = Some v' /\ py_eq v v' = true).
    { intros k v Hk.
      specialize (Hall (k, v)). cbn in Hall.
      destruct (d2 !! k) as [v' | ].
      - exists v'. split; [reflexivity | ].
        apply Hall, list_elem_of_In, elem_of_map_to_list, Hk.
      - discriminate Hall. apply list_elem_of_In, elem_of_map_to_list, Hk. }
    assert (Hdom : dom d1 = dom d2).
    { apply set_subseteq_size_eq.
      - intros k Hk. apply elem_of_dom in Hk as [v Hv].
        destruct (Hsub k v Hv) as (v' & Hv' & _). apply elem_of_dom. eauto.
      - rewrite !size_dom. lia. }
    intros k.
    destruct (d1 !! k) as [a | ] eqn:H1.
    + destruct (Hsub k a H1) as (v' & -> & Heq). exact Heq.
    + destruct (d2 !! k) as [b | ] eqn:H2; [ | exact I].
      assert (Hin : k ∈ dom d1) by (rewrite Hdom; apply elem_of_dom; eauto).
      apply elem_of_dom in Hin as [a Ha]. congruence.
  - intros Hsame. split.
    + rewrite <- !(size_dom (D := gset string)). f_equal.
      apply set_eq. intros k. rewrite !elem_of_dom.
      specialize (Hsame k).
      destruct (d1 !! k), (d2 !! k); try contradiction;
        split; intros [x Hx]; try discriminate; eauto.
    + intros [k v] Hin. apply list_elem_of_In, elem_of_map_to_list in Hin. cbn.
      specialize (Hsame k). rewrite Hin in Hsame.
      destruct (d2 !! k); [exact Hsame | contradiction].
Qed.

Lemma interface_update_shortcut {R} (netbox : Netbox R) (w : World R) (self : loc)
      (attrs : Dict) :
  dict_eq attrs (intf_attrs (objs w self)) = true ->
  NetboxInterface.update netbox self attrs w = (Ok (RetModel self), w).
Proof.
  intros H. unfold NetboxInterface.update, NetboxInterface.get_attrs. run.
  rewrite H. reflexivity.
Qed.

(** An update that differs from the recorded attributes starts with the
    translation and, when that returns, with a remote get. *)
Lemma interface_update_translated {R} (netbox : Netbox R) (w : World R) (self : loc)
      (attrs p : Dict) :
  dict_eq attrs (intf_attrs (objs w self)) = false ->
  NetboxInterface.translate_attrs_for_netbox w self attrs = Ok p ->
  NetboxInterface.update netbox self attrs w
  = (intf ← remote_get netbox dcim_interfaces (intf_remote_id (objs w self));
     record_update netbox intf p;;
     log INFO "Updated Interface %s %s (%s) in NetBox";;
     assign self (with_attrs attrs);;
     mret (RetModel self)) w.
Proof.
  intros Hne Ht.
  unfold NetboxInterface.update, NetboxInterface.get_attrs, NetboxInterface.translate.
  unfold mbind at 1. unfold M_bind at 1. unfold read at 1. rewrite Hne.
  unfold mbind at 1. unfold M_bind at 1. rewrite Ht.
  unfold mbind at 1. unfold M_bind at 1. unfold read at 1. reflexivity.
Qed.

Lemma interface_update_pushed_run {R} (netbox : Netbox R) (w : World R) (self : loc)
      (attrs p : Dict) (rec : NbRecord) (r1 r2 : R) (b : bool) :
  dict_eq attrs (intf_attrs (objs w self)) = false ->
  NetboxInterface.translate_attrs_for_netbox w self attrs = Ok p ->
  nb_get netbox dcim_interfaces (intf_remote_id (objs w self)) (remote w)
  = (Ok (Some rec), r1) ->
  nb_update netbox rec p r1 = (Ok b, r2) ->
  exists w' msg,
    NetboxInterface.update netbox self attrs w = (Ok (RetModel self), w')
    /\ objs w' self = with_attrs attrs (objs w self)
    /\ (forall l, l <> self -> objs w' l = objs w l)
    /\ dsync w' = dsync w
    /\ remote w' = r2
    /\ trace w'
       = (trace w ++ [RemoteGet dcim_interfaces (intf_remote_id (objs w self));
                      RemoteUpdate rec p; Logged INFO msg])%list.
Proof.
  intros Hne Ht Hget Hupd.
  rewrite (interface_update_translated netbox w self attrs p Hne Ht).
  run. rewrite Hget. cbn. rewrite Hupd. cbn.
  eexists. eexists. split; [reflexivity | ].
  cbn. rewrite Nat.eqb_refl. repeat split.
  - intros l Hl. destruct (Nat.eqb_spec l self); [contradiction | reflexivity].
  - rewrite <- !app_assoc. reflexivity.
Qed.

(** X13. An update with candidate attributes that differ from the recorded
    ones, whose translation returns, whose remote record is found and whose
    remote update is accepted, returns the entity; the candidate attributes
    are then recorded on the object (over the ones it had, identity, remote
    id, IPs and marker untouched), no other object changes, and the trace
    grows by the remote get, the remote update with the translated
    parameters, and one INFO log record. *)
Theorem interface_update_pushed :
  forall R (netbox : Netbox R) (w : World R) (self : loc) (attrs p : Dict)
         (rec : NbRecord) (r1 r2 : R) (b : bool),
    dict_eq attrs (intf_attrs (objs w self)) = false ->
    NetboxInterface.translate_attrs_for_netbox w self attrs = Ok p ->
    nb_get netbox dcim_interfaces (intf_remote_id (objs w self)) (remote w)
    = (Ok (Some rec), r1) ->
    nb_update netbox rec p r1 = (Ok b, r2) ->
    exists w' msg,
      NetboxInterface.update netbox self attrs w = (Ok (RetModel self), w')
      /\ objs w' self
         = mkInterface (intf_name (objs w self)) (intf_device_name (objs w self))
                       (ips (objs w self)) (attrs ∪ intf_attrs (objs w self))
                       (intf_remote_id (objs w self))
                       (connected_endpoint_type (objs w self))
      /\ (forall l, l <> self -> objs w' l = objs w l)
      /\ dsync w' = dsync w
      /\ remote w' = r2
      /\ trace w'
         = (trace w ++ [RemoteGet dcim_interfaces (intf_remote_id (objs w self));
                        RemoteUpdate rec p; Logged INFO msg])%list.
Proof. intros. eapply interface_update_pushed_run; eassumption. Qed.

Lemma interface_update_pushed_witness :
  exists w' msg,
    NetboxInterface.update Sample.accepting 0%nat SampleMore.scalars Sample.world
    = (Ok (RetModel 0%nat), w')
    /\ objs w' 0%nat
       = mkInterface "eth0" "sw1" ["10.0.0.1/24"]
                     (SampleMore.scalars ∪ intf_attrs Sample.eth0) (Some 11) None
    /\ (forall l, l <> 0%nat -> objs w' l = objs Sample.world l)
    /\ dsync w' = dsync Sample.world
    /\ remote w' = 100
    /\ trace w'
       = (trace Sample.world
            ++ [RemoteGet dcim_interfaces (Some 11);
                RemoteUpdate (mkRecord dcim_interfaces 11)
                  (<["device" := VInt 5]>
                     (<["name" := VStr "eth0"]>
                        (<["type" := VStr "other"]>
                           (<["mtu" := VInt 9000]> (<["description" := VStr ""]> ∅)))));
                Logged INFO msg])%list.
Proof.
  apply (interface_update_pushed Z Sample.accepting Sample.world 0%nat SampleMore.scalars _
           (mkRecord dcim_interfaces 11) 100 100 true).
  - vm_compute. reflexivity.
  - vm_compute. reflexivity.
  - reflexivity.
  - reflexivity.
Defined.

(** X14. An update that raises has recorded nothing: the interface objects
    and the store are as before (the candidate attributes are committed only
    after the remote update has returned); an update that returns, returns
    the entity itself. *)
Theorem interface_update_raise_keeps_objects :
  forall R (netbox : Netbox R) (w : World R) (self : loc) (attrs : Dict),
    match NetboxInterface.update netbox self attrs w with
    | (Raise _, w') => objs w' = objs w /\ dsync w' = dsync w
    | (Ok r, w') => r = RetModel self /\ dsync w' = dsync w
    end.
Proof.
  intros R netbox w self attrs.
  destruct (dict_eq attrs (intf_attrs (objs w self))) eqn:Heq.
  - rewrite (interface_update_shortcut netbox w self attrs Heq). split; reflexivity.
  - destruct (NetboxInterface.translate_attrs_for_netbox w self attrs) as [p | e] eqn:Ht.
    + rewrite (interface_update_translated netbox w self attrs p Heq Ht). run.
      destruct (nb_get netbox dcim_interfaces (intf_remote_id (objs w self)) (remote w))
        as [[[rec | ] | e] r1]; cbn; try (split; reflexivity).
      destruct (nb_update netbox rec p r1) as [[b | e] r2]; cbn; split; reflexivity.
    + unfold NetboxInterface.update, NetboxInterface.get_attrs, NetboxInterface.translate.
      unfold mbind, M_bind, read.
      cbn -[NetboxInterface.translate_attrs_for_netbox]. rewrite Heq, Ht.
      split; reflexivity.
Qed.

(** X15. The no-op test of update compares whole dictionaries: update returns
    the entity with the world untouched exactly for candidate attributes
    that have the same keys as the recorded ones, with equal values.
    Otherwise it goes on to translate and, when the translation returns,
    to the remote get: so candidate attributes that leave out a recorded key
    reach the remote system even if they repeat recorded values only. *)
Theorem interface_update_noop_iff_same_dict :
  forall R (netbox : Netbox R) (w : World R) (self : loc) (attrs : Dict),
    (same_dict attrs (intf_attrs (objs w self)) ->
     NetboxInterface.update netbox self attrs w = (Ok (RetModel self), w))
    /\ (forall p,
           ~ same_dict attrs (intf_attrs (objs w self)) ->
           NetboxInterface.translate_attrs_for_netbox w self attrs = Ok p ->
           exists rest,
             trace (NetboxInterface.update netbox self attrs w).2
             = (trace w ++ RemoteGet dcim_interfaces (intf_remote_id (objs w self))
                        :: rest)%list)
    /\ (forall k, is_Some (intf_attrs (objs w self) !! k) -> attrs !! k = None ->
                  ~ same_dict attrs (intf_attrs (objs w self))).
Proof.
  intros R netbox w self attrs. split; [ | split].
  - intros Hsame. apply interface_update_shortcut, dict_eq_spec, Hsame.
  - intros p Hdiff Ht.
    assert (Hne : dict_eq attrs (intf_attrs (objs w self)) = false).
    { destruct (dict_eq attrs (intf_attrs (objs w self))) eqn:Heq; [ | reflexivity].
      exfalso. apply Hdiff, dict_eq_spec, Heq. }
    rewrite (interface_update_translated netbox w self attrs p Hne Ht). run.
    destruct (nb_get netbox dcim_interfaces (intf_remote_id (objs w self)) (remote w))
      as [[[rec | ] | e] r1]; cbn; try (eexists; reflexivity).
    destruct (nb_update netbox rec p r1) as [[b | e] r2]; cbn;
      rewrite <- ?app_assoc; eexists; reflexivity.
  - intros k [v Hk] Hnone Hsame. specialize (Hsame k).
    rewrite Hk, Hnone in Hsame. exact Hsame.
Qed.

Lemma interface_update_noop_iff_same_dict_witness :
  NetboxInterface.update Sample.accepting 0%nat SampleMore.mtu_one Sample.world
  = (Ok (RetModel 0%nat), Sample.world)
  /\ (exists rest,
         trace (NetboxInterface.update Sample.accepting 0%nat ∅ Sample.world).2
         = (trace Sample.world ++ RemoteGet dcim_interfaces (Some 11) :: rest)%list).
Proof.
  split.
  - apply (proj1 (interface_update_noop_iff_same_dict Z Sample.accepting Sample.world
                    0%nat SampleMore.mtu_one)).
    apply dict_eq_spec. vm_compute. reflexivity.
  - pose proof (interface_update_noop_iff_same_dict Z Sample.accepting Sample.world
                  0%nat ∅) as (_ & Hpush & Hkey).
    eapply Hpush.
    + apply (Hkey "mtu"); [eexists; reflexivity | reflexivity].
    + vm_compute. reflexivity.
Defined.

(** X16. Update twice.  After an update that was pushed (as in X13) with
    candidate attributes that cover every recorded key, the same update
    again is a no-op: it returns the entity and leaves the world, trace and
    remote system included, as the first update left it. *)
Theorem interface_update_twice :
  forall R (netbox : Netbox R) (w : World R) (self : loc) (attrs p : Dict)
         (rec : NbRecord) (r1 r2 : R) (b : bool),
    dict_eq attrs (intf_attrs (objs w self)) = false ->
    NetboxInterface.translate_attrs_for_netbox w self attrs = Ok p ->
    nb_get netbox dcim_interfaces (intf_remote_id (objs w self)) (remote w)
    = (Ok (Some rec), r1) ->
    nb_update netbox rec p r1 = (Ok b, r2) ->
    (forall k, is_Some (intf_attrs (objs w self) !! k) -> is_Some (attrs !! k)) ->
    exists w',
      NetboxInterface.update netbox self attrs w = (Ok (RetModel self), w')
      /\ NetboxInterface.update netbox self attrs w' = (Ok (RetModel self), w').
Proof.
  intros R netbox w self attrs p rec r1 r2 b Hne Ht Hget Hupd Hcover.
  destruct (interface_update_pushed_run netbox w self attrs p rec r1 r2 b Hne Ht Hget Hupd)
    as (w' & msg & Hrun & Hobj & _).
  exists w'. split; [exact Hrun | ].
  apply interface_update_shortcut. rewrite Hobj. cbn.
  replace (attrs ∪ intf_attrs (objs w self)) with attrs; [apply dict_eq_refl | ].
  apply map_eq. intros k. symmetry.
  destruct (attrs !! k) as [v | ] eqn:Hk.
  - apply lookup_union_Some_l. exact Hk.
  - apply lookup_union_None. split; [exact Hk | ].
    destruct (intf_attrs (objs w self) !! k) as [v | ] eqn:Hold; [ | reflexivity].
    destruct (Hcover k) as [x Hx]; [exists v; exact Hold | congruence].
Qed.

Lemma interface_update_twice_witness :
  exists w',
    NetboxInterface.update Sample.accepting 0%nat SampleMore.scalars Sample.world
    = (Ok (RetModel 0%nat), w')
    /\ NetboxInterface.update Sample.accepting 0%nat SampleMore.scalars w'
       = (Ok (RetModel 0%nat), w').
Proof.
  apply (interface_update_twice Z Sample.accepting Sample.world 0%nat SampleMore.scalars
           (<["device" := VInt 5]>
              (<["name" := VStr "eth0"]>
                 (<["type" := VStr "other"]>
                    (<["mtu" := VInt 9000]> (<["description" := VStr ""]> ∅)))))
           (mkRecord dcim_interfaces 11) 100 100 true).
  - vm_compute. reflexivity.
  - vm_compute. reflexivity.
  - reflexivity.
  - reflexivity.
  - intros k [v Hk].
    destruct (String.eqb_spec k "mtu") as [-> | Hne]; [eexists; reflexivity | ].
    exfalso. cbn in Hk. unfold Sample.eth0 in Hk. cbn in Hk.
    rewrite lookup_insert_ne in Hk by congruence. rewrite lookup_empty in Hk.
    discriminate.
Defined.

(** ** [NetboxInterface.delete] and [NetboxIPAddress.delete] *)

Lemma existsb_primary_ip_false (o : option string) (l : list string) :
  (forall ip, In ip l -> o <> Some ip) ->
  existsb (fun x => bool_decide (o = Some x)) l = false.
Proof.
  intros H. induction l as [ | x l IH]; [reflexivity | ].
  cbn [existsb]. rewrite IH by (intros ip Hin; apply H; right; exact Hin).
  rewrite bool_decide_eq_false_2 by (apply H; left; reflexivity). reflexivity.
Qed.

(** An unprotected interface delete is the remote get and delete. *)
Lemma interface_delete_proceeds {R} (netbox : Netbox R) (w : World R) (self : loc) :
  unprotected w self ->
  NetboxInterface.delete netbox self w
  = (intf ← remote_get netbox dcim_interfaces (intf_remote_id (objs w self));
     record_delete netbox intf;;
     mret (RetModel self)) w.
Proof.
  intros Hun. unfold NetboxInterface.delete.
  unfold mbind at 1. unfold M_bind at 1. unfold read at 1.
  destruct Hun as [Hnil | (dev & Hdev & Hprim)].
  - rewrite Hnil. unfold mbind at 1. unfold M_bind at 1. unfold read at 1. reflexivity.
  - destruct (ips (objs w self)) as [ | i0 rest] eqn:Hips.
    + unfold mbind at 1. unfold M_bind at 1. unfold read at 1. reflexivity.
    + unfold mbind at 1. unfold M_bind at 1. cbv beta. cbn [dsync_get]. rewrite Hdev.
      unfold mbind at 1. unfold M_bind at 1. unfold lift at 1. cbn [getattr].
      replace (truthy_str (primary_ip dev)
               && existsb (fun ip => bool_decide (primary_ip dev = Some ip)) (i0 :: rest))
        with false.
      * unfold mbind at 1. unfold M_bind at 1. unfold read at 1. reflexivity.
      * destruct Hprim as [-> | Hnot]; [reflexivity | ].
        rewrite (existsb_primary_ip_false _ _ Hnot). apply eq_sym, andb_false_r.
Qed.

(** X17. Deleting an interface that is not protected (it has no IPs, or its
    device has no primary IP, or the primary IP is not among its IPs), whose
    remote record is found and whose remote delete returns, returns the
    entity after exactly two remote calls, the get by remote id and the
    delete of the record found; nothing is logged. *)
Theorem interface_delete_unprotected :
  forall R (netbox : Netbox R) (w : World R) (self : loc) (rec : NbRecord)
         (r1 r2 : R) (b : bool),
    unprotected w self ->
    nb_get netbox dcim_interfaces (intf_remote_id (objs w self)) (remote w)
    = (Ok (Some rec), r1) ->
    nb_delete netbox rec r1 = (Ok b, r2) ->
    exists w',
      NetboxInterface.delete netbox self w = (Ok (RetModel self), w')
      /\ remote w' = r2
      /\ trace w'
         = (trace w ++ [RemoteGet dcim_interfaces (intf_remote_id (objs w self));
                        RemoteDelete rec])%list.
Proof.
  intros R netbox w self rec r1 r2 b Hun Hget Hdel.
  rewrite (interface_delete_proceeds netbox w self Hun). run.
  rewrite Hget. cbn. rewrite Hdel. cbn.
  eexists. split; [reflexivity | ]. cbn. rewrite <- app_assoc. split; reflexivity.
Qed.

Lemma interface_delete_unprotected_witness :
  exists w',
    NetboxInterface.delete Sample.accepting 0%nat SampleMore.world_other_primary
    = (Ok (RetModel 0%nat), w')
    /\ remote w' = 100
    /\ trace w' = ([] ++ [RemoteGet dcim_interfaces (Some 11);
                          RemoteDelete (mkRecord dcim_interfaces 11)])%list.
Proof.
  apply (interface_delete_unprotected Z Sample.accepting SampleMore.world_other_primary
           0%nat (mkRecord dcim_interfaces 11) 100 100 true).
  - right. exists (mkDevice "sw1" (Some 5) (Some "10.0.0.9/24")).
    split; [reflexivity | right].
    intros ip [<- | []]. discriminate.
  - reflexivity.
  - reflexivity.
Defined.

(** X18. Whatever its outcome, an interface delete leaves the store and the
    interface objects as they were: the entity is not taken out of the
    store and keeps its remote id.  When it returns, it returns the entity
    itself. *)
Theorem interface_delete_keeps_local_state :
  forall R (netbox : Netbox R) (w : World R) (self : loc),
    let '(out, w') := NetboxInterface.delete netbox self w in
    objs w' = objs w
    /\ dsync w' = dsync w
    /\ match out with
       | Ok r => r = RetModel self
       | Raise _ => True
       end.
Proof.
  intros R netbox w self. unfold NetboxInterface.delete. run.
  assert (Hproceed :
            let '(out, w') :=
              match
                (let '(o, r) :=
                   nb_get netbox dcim_interfaces (intf_remote_id (objs w self)) (remote w) in
                 (o, set_remote r
                       (emit (RemoteGet dcim_interfaces (intf_remote_id (objs w self))) w)))
              with
              | (Ok a, w') =>
                  match record_delete netbox a w' with
                  | (Ok _, w'') => (Ok (RetModel self), w'')
                  | (Raise e, w'') => (Raise e, w'')
                  end
              | (Raise e, w') => (Raise e, w')
              end in
            objs w' = objs w /\ dsync w' = dsync w
            /\ match out with Ok r => r = RetModel self | Raise _ => True end).
  { destruct (nb_get netbox dcim_interfaces (intf_remote_id (objs w self)) (remote w))
      as [[[rec | ] | e] r1]; cbn; try (repeat split; reflexivity).
    destruct (nb_delete netbox rec r1) as [[b | e] r2]; cbn; repeat split; reflexivity. }
  unfold record_delete, lift in Hproceed.
  destruct (ips (objs w self)) as [ | i0 rest]; [exact Hproceed | ].
  cbn. destruct (device (dsync w) !! intf_device_name (objs w self)) as [dev | ]; cbn;
    [ | repeat split; reflexivity].
  destruct (truthy_str (primary_ip dev) && _); cbn;
    [repeat split; reflexivity | exact Hproceed].
Qed.

(** X19. Failures of an interface delete.  With IPs on the interface and its
    device absent from the store, delete raises on the attribute access of
    line 169 before any remote call.  When the interface is not protected
    and the remote get finds no record, it raises on the call of line 178,
    after the get and without a remote delete. *)
Theorem interface_delete_raises :
  forall R (netbox : Netbox R) (w : World R) (self : loc),
    (ips (objs w self) <> [] ->
     device (dsync w) !! intf_device_name (objs w self) = None ->
     NetboxInterface.delete netbox self w = (Raise (AttributeError "primary_ip"), w))
    /\ (forall r1,
           unprotected w self ->
           nb_get netbox dcim_interfaces (intf_remote_id (objs w self)) (remote w)
           = (Ok None, r1) ->
           exists w',
             NetboxInterface.delete netbox self w = (Raise (AttributeError "delete"), w')
             /\ remote w' = r1
             /\ trace w'
                = (trace w ++ [RemoteGet dcim_interfaces (intf_remote_id (objs w self))])%list).
Proof.
  intros R netbox w self. split.
  - intros Hips Hdev. unfold NetboxInterface.delete. run.
    destruct (ips (objs w self)) as [ | i0 rest]; [contradiction | ].
    cbn. rewrite Hdev. reflexivity.
  - intros r1 Hun Hget.
    rewrite (interface_delete_proceeds netbox w self Hun). run.
    rewrite Hget. cbn. eexists. repeat split.
Qed.

Lemma interface_delete_raises_witness :
  NetboxInterface.delete Sample.accepting 0%nat SampleMore.world_orphan
  = (Raise (AttributeError "primary_ip"), SampleMore.world_orphan)
  /\ (exists w',
         NetboxInterface.delete SampleMore.empty_remote 1%nat Sample.world
         = (Raise (AttributeError "delete"), w')
         /\ remote w' = 100
         /\ trace w' = ([] ++ [RemoteGet dcim_interfaces (Some 12)])%list).
Proof.
  split.
  - apply (proj1 (interface_delete_raises Z Sample.accepting SampleMore.world_orphan 0%nat)).
    + discriminate.
    + reflexivity.
  - apply (proj2 (interface_delete_raises Z SampleMore.empty_remote Sample.world 1%nat) 100).
    + left. reflexivity.
    + reflexivity.
Defined.

(** An unprotected IP address delete is the remote get and delete. *)
Lemma ipaddress_delete_proceeds {R} (netbox : Netbox R) (w : World R)
      (self : NetboxIPAddress) :
  ip_unprotected w self ->
  NetboxIPAddress.delete netbox self w
  = (ipaddr ← remote_get netbox ipam_ip_addresses (ip_remote_id self);
     record_delete netbox ipaddr;;
     mret (RetModel self)) w.
Proof.
  intros Hun. unfold NetboxIPAddress.delete.
  destruct Hun as [-> | (d & dev & Hname & Hdev & Hprim)]; [reflexivity | ].
  destruct (truthy_str (ip_device_name self)); [ | reflexivity].
  unfold mbind at 1. unfold M_bind at 1. cbv beta. rewrite Hname. cbn [dsync_get].
  rewrite Hdev.
  unfold mbind at 1. unfold M_bind at 1. unfold lift at 1. cbn [getattr].
  rewrite bool_decide_eq_false_2 by exact Hprim. reflexivity.
Qed.

(** X20. Deleting an IP address that is not protected (it has no device
    name, or its device has another primary IP or none), whose remote
    record is found and whose remote delete returns, returns the entity
    after exactly two remote calls, the get by remote id and the delete;
    without a device name the store is not consulted. *)
Theorem ipaddress_delete_unprotected :
  forall R (netbox : Netbox R) (w : World R) (self : NetboxIPAddress) (rec : NbRecord)
         (r1 r2 : R) (b : bool),
    ip_unprotected w self ->
    nb_get netbox ipam_ip_addresses (ip_remote_id self) (remote w) = (Ok (Some rec), r1) ->
    nb_delete netbox rec r1 = (Ok b, r2) ->
    exists w',
      NetboxIPAddress.delete netbox self w = (Ok (RetModel self), w')
      /\ remote w' = r2
      /\ dsync w' = dsync w
      /\ trace w'
         = (trace w ++ [RemoteGet ipam_ip_addresses (ip_remote_id self);
                        RemoteDelete rec])%list.
Proof.
  intros R netbox w self rec r1 r2 b Hun Hget Hdel.
  rewrite (ipaddress_delete_proceeds netbox w self Hun). run.
  rewrite Hget. cbn. rewrite Hdel. cbn.
  eexists. split; [reflexivity | ]. cbn. rewrite <- app_assoc. repeat split.
Qed.

Lemma ipaddress_delete_unprotected_witness :
  exists w',
    NetboxIPAddress.delete Sample.accepting SampleMore.loose_ip SampleMore.world_orphan
    = (Ok (RetModel SampleMore.loose_ip), w')
    /\ remote w' = 100
    /\ dsync w' = dsync SampleMore.world_orphan
    /\ trace w' = ([] ++ [RemoteGet ipam_ip_addresses (Some 32);
                          RemoteDelete (mkRecord ipam_ip_addresses 32)])%list.
Proof.
  apply (ipaddress_delete_unprotected Z Sample.accepting SampleMore.world_orphan
           SampleMore.loose_ip (mkRecord ipam_ip_addresses 32) 100 100 true).
  - left. reflexivity.
  - reflexivity.
  - reflexivity.
Defined.

(** X21. Failures of an IP address delete.  With a device name whose device
    is absent from the store, delete raises on the attribute access of line
    215 before any remote call.  When the address is not protected and the
    remote get finds no record, it raises on the call of line 224, after
    the get and without a remote delete. *)
Theorem ipaddress_delete_raises :
  forall R (netbox : Netbox R) (w : World R) (self : NetboxIPAddress),
    (forall d,
        ip_device_name self = Some d -> d <> "" ->
        device (dsync w) !! d = None ->
        NetboxIPAddress.delete netbox self w = (Raise (AttributeError "primary_ip"), w))
    /\ (forall r1,
           ip_unprotected w self ->
           nb_get netbox ipam_ip_addresses (ip_remote_id self) (remote w) = (Ok None, r1) ->
           exists w',
             NetboxIPAddress.delete netbox self w = (Raise (AttributeError "delete"), w')
             /\ remote w' = r1
             /\ trace w'
                = (trace w ++ [RemoteGet ipam_ip_addresses (ip_remote_id self)])%list).
Proof.
  intros R netbox w self. split.
  - intros d Hname Hne Hdev. unfold NetboxIPAddress.delete. run.
    rewrite Hname. cbn. destruct (String.eqb_spec d ""); [contradiction | ]. cbn.
    rewrite Hdev. reflexivity.
  - intros r1 Hun Hget.
    rewrite (ipaddress_delete_proceeds netbox w self Hun). run.
    rewrite Hget. cbn. eexists. repeat split.
Qed.

Lemma ipaddress_delete_raises_witness :
  NetboxIPAddress.delete Sample.accepting Sample.mgmt_ip SampleMore.world_orphan
  = (Raise (AttributeError "primary_ip"), SampleMore.world_orphan)
  /\ (exists w',
         NetboxIPAddress.delete SampleMore.empty_remote SampleMore.loose_ip Sample.world
         = (Raise (AttributeError "delete"), w')
         /\ remote w' = 100
         /\ trace w' = ([] ++ [RemoteGet ipam_ip_addresses (Some 32)])%list).
Proof.
  split.
  - apply (proj1 (ipaddress_delete_raises Z Sample.accepting SampleMore.world_orphan
                    Sample.mgmt_ip) "sw1").
    + reflexivity.
    + discriminate.
    + reflexivity.
  - apply (proj2 (ipaddress_delete_raises Z SampleMore.empty_remote Sample.world
                    SampleMore.loose_ip) 100).
    + left. reflexivity.
    + reflexivity.
Defined.

(** ** [NetboxVlan.create] and [NetboxVlan.update] *)

(** X22. A Vlan create whose site is in the store and which the remote
    system accepts makes one remote create and logs nothing; the remote
    call carries the vid, the remote id of the site (null when the site has
    none) and, when the candidate name is a true value, that name.  When
    the attributes repeat no keyword of the ids it returns a Vlan with the
    identity, the candidate attributes and the id of the remote record;
    when they do, line 275 raises [TypeError] after the remote create. *)
Theorem vlan_create_accepted :
  forall R (netbox : Netbox R) (w : World R) (ids : NetboxVlan.Ids) (attrs : Dict)
         (s : NetboxSite) (created : NbRecord) (r' : R),
    site (dsync w) !! NetboxVlan.ids_site_name ids = Some s ->
    nb_create netbox ipam_vlans
      (NetboxVlan.create_params ids attrs (site_remote_id s)) (remote w)
    = (Ok created, r') ->
    exists params,
      NetboxVlan.create netbox ids attrs w
      = (if kwargs_clash NetboxVlan.identifiers attrs then Raise TypeError
         else Ok (RetModel (mkVlan (NetboxVlan.ids_site_name ids) (NetboxVlan.ids_vid ids)
                                   attrs (Some (rec_id created)))),
         set_remote r' (emit (RemoteCreate ipam_vlans params) w))
      /\ params !! "vid" = Some (VInt (NetboxVlan.ids_vid ids))
      /\ params !! "site" = Some (of_opt_int (site_remote_id s))
      /\ (forall v, attrs !! "name" = Some v -> truthy v = true ->
                    params !! "name" = Some v).
Proof.
  intros R netbox w ids attrs s created r' Hsite Hcreate.
  exists (NetboxVlan.create_params ids attrs (site_remote_id s)).
  split; [ | split; [reflexivity | split; [reflexivity | ]]].
  - unfold NetboxVlan.create. run. rewrite Hsite. cbn. rewrite Hcreate. cbn.
    destruct (kwargs_clash NetboxVlan.identifiers attrs); reflexivity.
  - intros v Hv Ht. unfold NetboxVlan.create_params, NetboxVlan.vlan_name.
    rewrite Hv, Ht. reflexivity.
Qed.

Lemma vlan_create_accepted_witness :
  (exists params,
      NetboxVlan.create Sample.accepting (NetboxVlan.mkIds "nyc" 30)
        (vlan_attrs Sample.vlan20) Sample.world
      = (Ok (RetModel (mkVlan "nyc" 30 (vlan_attrs Sample.vlan20) (Some 100))),
         set_remote 101 (emit (RemoteCreate ipam_vlans params) Sample.world))
      /\ params !! "vid" = Some (VInt 30)
      /\ params !! "site" = Some (VInt 1)
      /\ (forall v, vlan_attrs Sample.vlan20 !! "name" = Some v -> truthy v = true ->
                    params !! "name" = Some v))
  /\ (exists params,
         NetboxVlan.create Sample.accepting (NetboxVlan.mkIds "nyc" 30)
           SampleMore.with_vid Sample.world
         = (Raise TypeError,
            set_remote 101 (emit (RemoteCreate ipam_vlans params) Sample.world))
         /\ params !! "vid" = Some (VInt 30)
         /\ params !! "site" = Some (VInt 1)
         /\ (forall v, SampleMore.with_vid !! "name" = Some v -> truthy v = true ->
                       params !! "name" = Some v)).
Proof.
  split.
  - apply (vlan_create_accepted Z Sample.accepting Sample.world (NetboxVlan.mkIds "nyc" 30)
             (vlan_attrs Sample.vlan20) (mkSite "nyc" (Some 1)) (mkRecord ipam_vlans 100)
             101).
    + reflexivity.
    + reflexivity.
  - apply (vlan_create_accepted Z Sample.accepting Sample.world (NetboxVlan.mkIds "nyc" 30)
             SampleMore.with_vid (mkSite "nyc" (Some 1)) (mkRecord ipam_vlans 100) 101).
    + reflexivity.
    + reflexivity.
Defined.

(** X23. What Vlan create does not catch.  When the site named by the ids is
    not in the store, create raises on the attribute access of line 270,
    inside the [try] but before the remote call, and nothing is logged.  An
    exception of the remote create other than the validation/conflict error
    is raised on, again without a log record. *)
Theorem vlan_create_raises :
  forall R (netbox : Netbox R) (w : World R) (ids : NetboxVlan.Ids) (attrs : Dict),
    (site (dsync w) !! NetboxVlan.ids_site_name ids = None ->
     NetboxVlan.create netbox ids attrs w = (Raise (AttributeError "remote_id"), w))
    /\ (forall s e r',
           site (dsync w) !! NetboxVlan.ids_site_name ids = Some s ->
           nb_create netbox ipam_vlans
             (NetboxVlan.create_params ids attrs (site_remote_id s)) (remote w)
           = (Raise e, r') ->
           e <> RequestError ->
           NetboxVlan.create netbox ids attrs w
           = (Raise e,
              set_remote r'
                (emit (RemoteCreate ipam_vlans
                         (NetboxVlan.create_params ids attrs (site_remote_id s))) w))).
Proof.
  intros R netbox w ids attrs. split.
  - intros Hsite. unfold NetboxVlan.create. run. rewrite Hsite. reflexivity.
  - intros s e r' Hsite Hcreate Hne.
    unfold NetboxVlan.create. run. rewrite Hsite. cbn. rewrite Hcreate.
    destruct e; try reflexivity. contradiction.
Qed.

Lemma vlan_create_raises_witness :
  NetboxVlan.create Sample.accepting (NetboxVlan.mkIds "sfo" 20) ∅ Sample.world
  = (Raise (AttributeError "remote_id"), Sample.world)
  /\ NetboxVlan.create SampleMore.broken (NetboxVlan.mkIds "nyc" 20) ∅ Sample.world
     = (Raise (OtherError "timeout"),
        set_remote 100
          (emit (RemoteCreate ipam_vlans
                   (NetboxVlan.create_params (NetboxVlan.mkIds "nyc" 20) ∅ (Some 1)))
                Sample.world)).
Proof.
  split.
  - apply (proj1 (vlan_create_raises Z Sample.accepting Sample.world
                    (NetboxVlan.mkIds "sfo" 20) ∅)).
    reflexivity.
  - apply (proj2 (vlan_create_raises Z SampleMore.broken Sample.world
                    (NetboxVlan.mkIds "nyc" 20) ∅)
             (mkSite "nyc" (Some 1)) (OtherError "timeout") 100).
    + reflexivity.
    + reflexivity.
    + discriminate.
Defined.

(** X24. Vlan update.  It starts with the remote get by remote id.  When no
    record is found it raises on the call of line 288; when a record is found
    and the candidate attributes have no [name], it raises [KeyError] after
    the get and without a remote update; when they have one, the remote
    update carries the name and nothing else, whatever other attributes are
    in the candidate set, and the Vlan returned records the candidate
    attributes over the ones it had and keeps its identity and remote id. *)
Theorem vlan_update_cases :
  forall R (netbox : Netbox R) (w : World R) (self : NetboxVlan) (attrs : Dict) (r1 : R),
    (nb_get netbox ipam_vlans (vlan_remote_id self) (remote w) = (Ok None, r1) ->
     NetboxVlan.update netbox self attrs w
     = (Raise (AttributeError "update"),
        set_remote r1 (emit (RemoteGet ipam_vlans (vlan_remote_id self)) w)))
    /\ (forall rec,
           nb_get netbox ipam_vlans (vlan_remote_id self) (remote w) = (Ok (Some rec), r1) ->
           attrs !! "name" = None ->
           NetboxVlan.update netbox self attrs w
           = (Raise (KeyError "name"),
              set_remote r1 (emit (RemoteGet ipam_vlans (vlan_remote_id self)) w)))
    /\ (forall rec name b r2,
           nb_get netbox ipam_vlans (vlan_remote_id self) (remote w) = (Ok (Some rec), r1) ->
           attrs !! "name" = Some name ->
           nb_update netbox rec (<["name" := name]> ∅) r1 = (Ok b, r2) ->
           NetboxVlan.update netbox self attrs w
           = (Ok (RetModel (mkVlan (vlan_site_name self) (vid self)
                                   (attrs ∪ vlan_attrs self) (vlan_remote_id self))),
              set_remote r2
                (emit (RemoteUpdate rec (<["name" := name]> ∅))
                   (set_remote r1
                      (emit (RemoteGet ipam_vlans (vlan_remote_id self)) w))))).
Proof.
  intros R netbox w self attrs r1. split; [ | split].
  - intros Hget. unfold NetboxVlan.update. run. rewrite Hget. reflexivity.
  - intros rec Hget Hname. unfold NetboxVlan.update, getitem. run.
    rewrite Hget. cbn. rewrite Hname. reflexivity.
  - intros rec name b r2 Hget Hname Hupd. unfold NetboxVlan.update, getitem. run.
    rewrite Hget. cbn. rewrite Hname. cbn. rewrite Hupd. reflexivity.
Qed.

Lemma vlan_update_cases_witness :
  NetboxVlan.update SampleMore.empty_remote Sample.vlan20 ∅ Sample.world
  = (Raise (AttributeError "update"),
     set_remote 100 (emit (RemoteGet ipam_vlans (Some 78)) Sample.world))
  /\ NetboxVlan.update Sample.accepting Sample.vlan20 SampleMore.scalars Sample.world
     = (Raise (KeyError "name"),
        set_remote 100 (emit (RemoteGet ipam_vlans (Some 78)) Sample.world))
  /\ NetboxVlan.update Sample.accepting Sample.vlan20 SampleMore.renamed Sample.world
     = (Ok (RetModel (mkVlan "nyc" 20 (SampleMore.renamed ∪ vlan_attrs Sample.vlan20)
                             (Some 78))),
        set_remote 100
          (emit (RemoteUpdate (mkRecord ipam_vlans 78) (<["name" := VStr "guests"]> ∅))
             (set_remote 100 (emit (RemoteGet ipam_vlans (Some 78)) Sample.world)))).
Proof.
  split; [ | split].
  - apply (proj1 (vlan_update_cases Z SampleMore.empty_remote Sample.world Sample.vlan20
                    ∅ 100)).
    reflexivity.
  - apply (proj1 (proj2 (vlan_update_cases Z Sample.accepting Sample.world Sample.vlan20
                           SampleMore.scalars 100)) (mkRecord ipam_vlans 78)).
    + reflexivity.
    + reflexivity.
  - apply (proj2 (proj2 (vlan_update_cases Z Sample.accepting Sample.world Sample.vlan20
                           SampleMore.renamed 100))
             (mkRecord ipam_vlans 78) (VStr "guests") true 100).
    + reflexivity.
    + reflexivity.
    + reflexivity.
Defined.

(** ** [NetboxCable.create] and [NetboxCable.delete] *)

(** X25. A Cable create that the remote system rejects.  With both endpoints
    in the store and unconnected: on the validation/conflict error create
    returns [False] after the remote call and one WARNING log record; any
    other exception of the remote create is raised on.  In both cases the
    interface objects are as before, so neither endpoint is marked as
    connected. *)
Theorem cable_create_rejected :
  forall R (netbox : Netbox R) (get_intf_from_netbox : string -> string -> M R (option loc))
         (w : World R) (ids : NetboxCable.Ids) (attrs : Dict) (a z : loc) (e : Exn) (r' : R),
    endpoints_in_store w ids a z ->
    connected w a = false ->
    connected w z = false ->
    nb_create netbox dcim_cables
      (NetboxCable.create_params (intf_remote_id (objs w a)) (intf_remote_id (objs w z)))
      (remote w) = (Raise e, r') ->
    exists out w',
      NetboxCable.create netbox get_intf_from_netbox ids attrs w = (out, w')
      /\ (e = RequestError ->
          out = Ok RetFalse
          /\ exists msg,
              trace w'
              = (trace w
                   ++ [RemoteCreate dcim_cables
                         (NetboxCable.create_params (intf_remote_id (objs w a))
                                                    (intf_remote_id (objs w z)));
                       Logged WARNING msg])%list)
      /\ (e <> RequestError -> out = Raise e)
      /\ objs w' = objs w
      /\ dsync w' = dsync w
      /\ remote w' = r'.
Proof.
  intros R netbox fallback w ids attrs a z e r' Hin Ha Hz Hcreate.
  unfold NetboxCable.create. unfold mbind at 1. unfold M_bind.
  rewrite (resolve_in_store fallback w ids a z Hin).
  unfold NetboxCable.connect, connected in *. run.
  rewrite Ha. cbn. rewrite Hz. cbn. rewrite Hcreate.
  destruct e; cbn; eexists; eexists; (split; [reflexivity | ]); cbn;
    repeat split; try discriminate; try (intros H; contradiction).
  eexists. rewrite <- app_assoc. reflexivity.
Qed.

Lemma cable_create_rejected_witness :
  exists out w',
    NetboxCable.create Sample.refusing SampleLookup.fetch
      (NetboxCable.mkIds "sw1" "eth1" "sw2" "eth9") ∅ Sample.world = (out, w')
    /\ out = Ok RetFalse
    /\ objs w' = objs Sample.world
    /\ remote w' = 100.
Proof.
  destruct (cable_create_rejected Z Sample.refusing SampleLookup.fetch Sample.world
              (NetboxCable.mkIds "sw1" "eth1" "sw2" "eth9") ∅ 1%nat 2%nat RequestError 100)
    as (out & w' & Hrun & Hreq & _ & Hobjs & _ & Hremote).
  - split; reflexivity.
  - reflexivity.
  - reflexivity.
  - reflexivity.
  - exists out, w'. split; [exact Hrun | ].
    split; [exact (proj1 (Hreq eq_refl)) | split; [exact Hobjs | exact Hremote]].
Defined.

(** X26. With both endpoints in the store, Cable create never consults the
    remote lookup: its outcome and the world it leaves are the same for any
    two lookups. *)
Theorem cable_create_ignores_lookup :
  forall R (netbox : Netbox R) (f g : string -> string -> M R (option loc))
         (w : World R) (ids : NetboxCable.Ids) (attrs : Dict) (a z : loc),
    endpoints_in_store w ids a z ->
    NetboxCable.create netbox f ids attrs w = NetboxCable.create netbox g ids attrs w.
Proof.
  intros R netbox f g w ids attrs a z Hin.
  unfold NetboxCable.create. unfold mbind, M_bind.
  rewrite (resolve_in_store f w ids a z Hin).
  rewrite (resolve_in_store g w ids a z Hin). reflexivity.
Qed.

Lemma cable_create_ignores_lookup_witness :
  NetboxCable.create Sample.accepting SampleLookup.fetch
    (NetboxCable.mkIds "sw1" "eth1" "sw2" "eth9") ∅ Sample.world
  = NetboxCable.create Sample.accepting (fun _ _ => mret None)
      (NetboxCable.mkIds "sw1" "eth1" "sw2" "eth9") ∅ Sample.world.
Proof.
  apply (cable_create_ignores_lookup Z Sample.accepting SampleLookup.fetch
           (fun _ _ => mret None) Sample.world
           (NetboxCable.mkIds "sw1" "eth1" "sw2" "eth9") ∅ 1%nat 2%nat).
  split; reflexivity.
Defined.

(** X27. With exactly one endpoint in the store, Cable create consults the
    remote lookup once, for the missing endpoint.  If the lookup raises,
    create raises the same exception; if it finds nothing, create returns
    [False] in the world the lookup left, without a log record or a remote
    create; if it finds the interface, create goes on with lines 325-361 on
    the stored endpoint and the one found. *)
Theorem cable_create_one_endpoint_missing :
  forall R (netbox : Netbox R) (get_intf_from_netbox : string -> string -> M R (option loc))
         (w w' : World R) (ids : NetboxCable.Ids) (attrs : Dict) (l : loc)
         (o : Outcome (option loc)),
    (interface (dsync w)
       !! interface_uid (NetboxCable.ids_device_a_name ids)
            (NetboxCable.ids_interface_a_name ids) = None ->
     interface (dsync w)
       !! interface_uid (NetboxCable.ids_device_z_name ids)
            (NetboxCable.ids_interface_z_name ids) = Some l ->
     get_intf_from_netbox (NetboxCable.ids_device_a_name ids)
                          (NetboxCable.ids_interface_a_name ids) w = (o, w') ->
     NetboxCable.create netbox get_intf_from_netbox ids attrs w
     = match o with
       | Ok (Some a) => NetboxCable.connect netbox ids attrs a l w'
       | Ok None => (Ok RetFalse, w')
       | Raise e => (Raise e, w')
       end)
    /\ (interface (dsync w)
          !! interface_uid (NetboxCable.ids_device_a_name ids)
               (NetboxCable.ids_interface_a_name ids) = Some l ->
        interface (dsync w)
          !! interface_uid (NetboxCable.ids_device_z_name ids)
               (NetboxCable.ids_interface_z_name ids) = None ->
        get_intf_from_netbox (NetboxCable.ids_device_z_name ids)
                             (NetboxCable.ids_interface_z_name ids) w = (o, w') ->
        NetboxCable.create netbox get_intf_from_netbox ids attrs w
        = match o with
          | Ok (Some z) => NetboxCable.connect netbox ids attrs l z w'
          | Ok None => (Ok RetFalse, w')
          | Raise e => (Raise e, w')
          end).
Proof.
  intros R netbox fallback w w' ids attrs l o. split.
  - intros Ha Hz Hfetch.
    unfold NetboxCable.create, NetboxCable.resolve_endpoints, NetboxCable.get_interface.
    unfold mbind, M_bind, read, mret, M_ret. rewrite Ha, Hz, Hfetch.
    destruct o as [[a | ] | e]; reflexivity.
  - intros Ha Hz Hfetch.
    unfold NetboxCable.create, NetboxCable.resolve_endpoints, NetboxCable.get_interface.
    unfold mbind, M_bind, read, mret, M_ret. rewrite Ha, Hz, Hfetch.
    destruct o as [[z | ] | e]; reflexivity.
Qed.

Lemma cable_create_one_endpoint_missing_witness :
  NetboxCable.create Sample.accepting (fun _ _ => mret None)
    (NetboxCable.mkIds "sw1" "eth1" "sw4" "xe0") ∅ Sample.world
  = (Ok RetFalse, Sample.world)
  /\ (exists item w',
         NetboxCable.create Sample.accepting SampleLookup.fetch
           (NetboxCable.mkIds "sw3" "xe0" "sw2" "eth9") ∅ Sample.world
         = (Ok (RetModel item), w')
         /\ connected_endpoint_type (objs w' 4%nat) = Some "dcim.interface"
         /\ connected_endpoint_type (objs w' 2%nat) = Some "dcim.interface").
Proof.
  split.
  - apply (proj2 (cable_create_one_endpoint_missing Z Sample.accepting (fun _ _ => mret None)
                    Sample.world Sample.world (NetboxCable.mkIds "sw1" "eth1" "sw4" "xe0")
                    ∅ 1%nat (Ok None))); reflexivity.
  - eexists. eexists.
    rewrite (proj1 (cable_create_one_endpoint_missing Z Sample.accepting SampleLookup.fetch
                      Sample.world (SampleLookup.fetch "sw3" "xe0" Sample.world).2
                      (NetboxCable.mkIds "sw3" "xe0" "sw2" "eth9") ∅ 2%nat
                      (Ok (Some 4%nat))) eq_refl eq_refl eq_refl).
    vm_compute. repeat split; reflexivity.
Defined.

(** X28. Cable delete.  It makes the remote get by remote id; when no record
    is found it raises on the call of line 370, without a remote delete;
    when a record is found and its delete returns, the trace holds exactly
    these two calls and the record is what delete returns.  Whatever the
    outcome, the store and the interface objects are as before: the markers
    of the two endpoint interfaces stay set. *)
Theorem cable_delete_cases :
  forall R (netbox : Netbox R) (w : World R) (self : NetboxCable),
    (forall r1,
        nb_get netbox dcim_cables (cable_remote_id self) (remote w) = (Ok None, r1) ->
        NetboxCable.delete netbox self w
        = (Raise (AttributeError "delete"),
           set_remote r1 (emit (RemoteGet dcim_cables (cable_remote_id self)) w)))
    /\ (forall rec r1 b r2,
           nb_get netbox dcim_cables (cable_remote_id self) (remote w) = (Ok (Some rec), r1) ->
           nb_delete netbox rec r1 = (Ok b, r2) ->
           NetboxCable.delete netbox self w
           = (Ok (RetRecord rec),
              set_remote r2
                (emit (RemoteDelete rec)
                   (set_remote r1 (emit (RemoteGet dcim_cables (cable_remote_id self)) w)))))
    /\ objs (NetboxCable.delete netbox self w).2 = objs w
    /\ dsync (NetboxCable.delete netbox self w).2 = dsync w.
Proof.
  intros R netbox w self. split; [ | split].
  - intros r1 Hget. unfold NetboxCable.delete. run. rewrite Hget. reflexivity.
  - intros rec r1 b r2 Hget Hdel. unfold NetboxCable.delete. run.
    rewrite Hget. cbn. rewrite Hdel. reflexivity.
  - unfold NetboxCable.delete. run.
    destruct (nb_get netbox dcim_cables (cable_remote_id self) (remote w))
      as [[[rec | ] | e] r1]; cbn; try (split; reflexivity).
    destruct (nb_delete netbox rec r1) as [[b | e] r2]; cbn; split; reflexivity.
Qed.

Lemma cable_delete_cases_witness :
  NetboxCable.delete SampleMore.empty_remote SampleCable.cable Sample.world
  = (Raise (AttributeError "delete"),
     set_remote 100 (emit (RemoteGet dcim_cables (Some 55)) Sample.world))
  /\ NetboxCable.delete Sample.accepting SampleCable.cable Sample.world
     = (Ok (RetRecord (mkRecord dcim_cables 55)),
        set_remote 100
          (emit (RemoteDelete (mkRecord dcim_cables 55))
             (set_remote 100 (emit (RemoteGet dcim_cables (Some 55)) Sample.world)))).
Proof.
  split.
  - apply (proj1 (cable_delete_cases Z SampleMore.empty_remote Sample.world
                    SampleCable.cable) 100).
    reflexivity.
  - apply (proj1 (proj2 (cable_delete_cases Z Sample.accepting Sample.world
                           SampleCable.cable))
             (mkRecord dcim_cables 55) 100 true 100).
    + reflexivity.
    + reflexivity.
Defined.
